(** * Anomaly detection engine: a shallow embedding of [anomaly_detector.py]

    The development follows the Python class [AnomalyDetector] method by
    method.  Python values that come out of [json.loads] are modelled by the
    inductive type [json]; floats are IEEE-754 binary64 values in the
    representation of the standard library's [SpecFloat]; exceptions are
    explicit results; the mutable detector object, the two files it touches,
    the wall clock and the console are the components of a [world] that is
    threaded through a small state-and-exception monad.  The scikit-learn
    estimators are external: they are taken as an interface ([Sklearn]),
    which also says what a failing call leaves of the estimator. *)

From Stdlib Require Import ZArith List String Bool Lia.
From Stdlib Require Import Floats.SpecFloat.
Import ListNotations.
Local Open Scope string_scope.
Local Open Scope list_scope.
Local Open Scope Z_scope.

Set Implicit Arguments.
Set Warnings "-register-all".

(** ** Python values *)

(** What [json.loads] can return.  A dict is an association list in
    insertion order; lookup takes the first binding of a key. *)
Inductive json : Type :=
| JNull
| JBool (b : bool)
| JInt (z : Z)
| JFloat (f : spec_float)
| JStr (s : string)
| JArr (l : list json)
| JObj (o : list (string * json)).

Inductive exn : Type :=
| KeyError (key : string)
| TypeError
| ValueError
| AttributeError
| JSONDecodeError
| UnicodeDecodeError
| RecursionError
| LibraryError (code : nat).

Inductive result (A : Type) : Type :=
| Ok (a : A)
| Raise (e : exn).
Arguments Ok {A} a.
Arguments Raise {A} e.

Definition bindR {A B} (r : result A) (k : A -> result B) : result B :=
  match r with
  | Ok a => k a
  | Raise e => Raise e
  end.

Notation "'let?' x ':=' r 'in' k" := (bindR r (fun x => k))
  (at level 10, x name, r at level 100, k at level 200).

(** [[f(x) for x in xs]]: the first exception aborts the comprehension. *)
Fixpoint mapR {A B} (f : A -> result B) (xs : list A) : result (list B) :=
  match xs with
  | [] => Ok []
  | x :: xs' =>
      let? y := f x in
      let? ys := mapR f xs' in
      Ok (y :: ys)
  end.

(** [[x for x in xs if p(x)]] with a test that may raise. *)
Fixpoint filterR {A} (p : A -> result bool) (xs : list A) : result (list A) :=
  match xs with
  | [] => Ok []
  | x :: xs' =>
      let? b := p x in
      let? ys := filterR p xs' in
      Ok (if b then x :: ys else ys)
  end.

Fixpoint assoc (k : string) (o : list (string * json)) : option json :=
  match o with
  | [] => None
  | (k', v) :: o' => if String.eqb k k' then Some v else assoc k o'
  end.

(** [d[k]] *)
Definition getitem (d : json) (k : string) : result json :=
  match d with
  | JObj o =>
      match assoc k o with
      | Some v => Ok v
      | None => Raise (KeyError k)
      end
  | _ => Raise TypeError
  end.

(** [d.get(k, default)] *)
Definition dict_get (d : json) (k : string) (default : json) : result json :=
  match d with
  | JObj o =>
      match assoc k o with
      | Some v => Ok v
      | None => Ok default
      end
  | _ => Raise AttributeError
  end.

Definition float_is_zero (f : spec_float) : bool :=
  match f with
  | S754_zero _ => true
  | _ => false
  end.

(** Python truth value, as tested by [not x] and [if x]. *)
Definition truthy (v : json) : bool :=
  match v with
  | JNull => false
  | JBool b => b
  | JInt z => negb (z =? 0)
  | JFloat f => negb (float_is_zero f)
  | JStr s => negb (String.eqb s "")
  | JArr l => match l with [] => false | _ => true end
  | JObj o => match o with [] => false | _ => true end
  end.

(** The binary64 value of an integer literal such as [8.0]. *)
Definition float_lit (z : Z) : spec_float := binary_normalize 53 1024 z 0 false.

(** [v > c] for a float literal [c] of integral value.  Python compares an
    int with a float exactly, and a bool as the int 0 or 1. *)
Definition gt_lit (v : json) (c : Z) : result bool :=
  match v with
  | JFloat f => Ok (SFltb (float_lit c) f)
  | JInt z => Ok (c <? z)
  | JBool b => Ok (c <? (if b then 1 else 0))
  | _ => Raise TypeError
  end.

(** [f"{v:.2f}"]: the formatting succeeds on numbers only. *)
Definition format_f (v : json) : result unit :=
  match v with
  | JInt _ | JFloat _ | JBool _ => Ok tt
  | JStr _ => Raise ValueError
  | _ => Raise TypeError
  end.

(** ** Files, console and clock *)

(** A line of the telemetry file, as [line.strip()] and [json.loads] see it. *)
Inductive line : Type :=
| LBlank
| LJson (v : json)
| LBad.

(** The content of the anomalies file, as [json.load] sees it: an empty
    file or a text that is not JSON, on which it raises [JSONDecodeError];
    a JSON document; or a content on which it raises another exception [e]
    ([UnicodeDecodeError] on bytes that are not UTF-8, [RecursionError] on
    a document nested too deep). *)
Inductive content : Type :=
| Empty
| Corrupt
| Doc (v : json)
| Unreadable (e : exn).

Definition json_load (c : content) : result json :=
  match c with
  | Doc v => Ok v
  | Empty | Corrupt => Raise JSONDecodeError
  | Unreadable e => Raise e
  end.

Inductive message : Type :=
| MsgTelemetryNotFound
| MsgNotEnough
| MsgTrained (n : nat)
| MsgNotTrained
| MsgNotAnomaly (vibration altitude airspeed pitch : json)
| MsgRetraining
| MsgAnomalyDetected (vibration altitude airspeed : json)
| MsgSaved (n : nat)
| MsgStarting
| MsgDetecting (n : nat)
| MsgDetected (n : nat)
| MsgNoNewData
| MsgError (e : exn).

Inductive event : Type :=
| Print (m : message)
| Sleep (seconds : Z).

(** ** Severity *)

Inductive tier : Type := LOW | MEDIUM | HIGH | CRITICAL.

Definition tier_name (t : tier) : string :=
  match t with
  | LOW => "LOW"
  | MEDIUM => "MEDIUM"
  | HIGH => "HIGH"
  | CRITICAL => "CRITICAL"
  end.

Definition tier_rank (t : tier) : Z :=
  match t with
  | LOW => 0
  | MEDIUM => 1
  | HIGH => 2
  | CRITICAL => 3
  end.

(** The [if]/[elif] chain of [calculate_severity] on the vibration value. *)
Definition severity_of (vibration : json) : result tier :=
  let? c := gt_lit vibration 8 in
  if c then Ok CRITICAL else
  let? h := gt_lit vibration 6 in
  if h then Ok HIGH else
  let? m := gt_lit vibration 4 in
  if m then Ok MEDIUM else Ok LOW.

Definition calculate_severity (data_point : json) : result tier :=
  let? vibration := getitem data_point "vibration" in
  severity_of vibration.

(** The order of two vibration readings of the same numeric type. *)
Definition reading_le (v1 v2 : json) : Prop :=
  match v1, v2 with
  | JFloat f1, JFloat f2 => SFleb f1 f2 = true
  | JInt z1, JInt z2 => z1 <= z2
  | _, _ => False
  end.

Definition is_reading (v : json) : bool :=
  match v with
  | JFloat _ | JInt _ => true
  | _ => false
  end.

(** ** Feature extraction *)

Definition extract_features (data_point : json) : result (list json) :=
  let? altitude := getitem data_point "altitude" in
  let? airspeed := getitem data_point "airspeed" in
  let? pitch := getitem data_point "pitch" in
  let? vibration := getitem data_point "vibration" in
  Ok [altitude; airspeed; pitch; vibration].

(** ** The external estimators *)

(** [StandardScaler] and [IsolationForest] of scikit-learn.  Fitting mutates
    the estimator object in place, so [fit_transform] and [fit] take the
    estimator and return the fitted one.  A fit that raises may have changed
    the estimator before it raised ([StandardScaler.fit_transform] resets
    the scaler before it validates its input): [scaler_after_error] and
    [forest_after_error] give the estimator that such a call leaves, about
    which nothing is assumed.  [transform] and [predict] only read the
    estimator.  The feature matrix is the list of rows built by
    [extract_features]; [predict] returns one label per row, [-1] for an
    outlier and [1] for an inlier. *)
Class Sklearn : Type := {
  Scaler : Type;
  Forest : Type;
  Scaled : Type;
  StandardScaler : Scaler;
  IsolationForest : Forest;
  fit_transform : Scaler -> list (list json) -> result (Scaler * Scaled);
  scaler_after_error : Scaler -> list (list json) -> Scaler;
  transform : Scaler -> list (list json) -> result Scaled;
  fit : Forest -> Scaled -> result Forest;
  forest_after_error : Forest -> Scaled -> Forest;
  predict : Forest -> Scaled -> result (list Z)
}.

(** [datetime.now().isoformat()] at the [n]-th reading of the clock. *)
Class Datetime : Type := {
  isoformat : nat -> string
}.

Section Detector.

Context {sk : Sklearn} {dt : Datetime}.

(** ** The detector object and its world *)

Record detector : Type := mkDetector {
  scaler : Scaler;
  model : Forest;
  is_trained : bool;
  last_position : nat;
  training_data : list json;
  anomalies : list json;
  incorrect_anomalies : Z
}.

(** [AnomalyDetector.__init__] *)
Definition init : detector :=
  {| scaler := StandardScaler;
     model := IsolationForest;
     is_trained := false;
     last_position := 0;
     training_data := [];
     anomalies := [];
     incorrect_anomalies := 0 |}.

Record world : Type := mkWorld {
  self : detector;
  telemetry_file : option (list line);
  anomalies_file : option content;
  clock : nat;
  trace : list event
}.

(** ** State and exceptions *)

(** A computation runs on a world, and returns a value or raises; what it
    did to the world before raising stays done. *)
Definition M (A : Type) : Type := world -> result A * world.

Definition ret {A} (a : A) : M A := fun w => (Ok a, w).

Definition bind {A B} (m : M A) (k : A -> M B) : M B :=
  fun w =>
    match m w with
    | (Ok a, w') => k a w'
    | (Raise e, w') => (Raise e, w')
    end.

Notation "x <- m ;; k" := (bind m (fun x => k))
  (at level 61, m at next level, right associativity).
Notation "m ;; k" := (bind m (fun _ => k))
  (at level 61, right associativity).

Definition lift {A} (r : result A) : M A := fun w => (r, w).

(** [try: m except Exception as e: h(e)] *)
Definition try_except {A} (m : M A) (h : exn -> M A) : M A :=
  fun w =>
    match m w with
    | (Ok a, w') => (Ok a, w')
    | (Raise e, w') => h e w'
    end.

(** The elementary changes of the world. *)
Definition upd_self (f : detector -> detector) (w : world) : world :=
  {| self := f (self w);
     telemetry_file := telemetry_file w;
     anomalies_file := anomalies_file w;
     clock := clock w;
     trace := trace w |}.

Definition log (e : event) (w : world) : world :=
  {| self := self w;
     telemetry_file := telemetry_file w;
     anomalies_file := anomalies_file w;
     clock := clock w;
     trace := trace w ++ [e] |}.

Definition tick (w : world) : world :=
  {| self := self w;
     telemetry_file := telemetry_file w;
     anomalies_file := anomalies_file w;
     clock := S (clock w);
     trace := trace w |}.

Definition store (c : content) (w : world) : world :=
  {| self := self w;
     telemetry_file := telemetry_file w;
     anomalies_file := Some c;
     clock := clock w;
     trace := trace w |}.

Definition get_self : M detector := fun w => (Ok (self w), w).

Definition modify_self (f : detector -> detector) : M unit :=
  fun w => (Ok tt, upd_self f w).

Definition emit (e : event) : M unit := fun w => (Ok tt, log e w).

Definition print (m : message) : M unit := emit (Print m).

Definition sleep (seconds : Z) : M unit := emit (Sleep seconds).

Definition datetime_now_isoformat : M string :=
  fun w => (Ok (isoformat (clock w)), tick w).

Definition read_anomalies_file : M (option content) :=
  fun w => (Ok (anomalies_file w), w).

Definition write_anomalies_file (c : content) : M unit :=
  fun w => (Ok tt, store c w).

Definition read_telemetry_file : M (option (list line)) :=
  fun w => (Ok (telemetry_file w), w).

(** Assignments to the attributes of [self]. *)
Definition set_scaler (s : Scaler) (d : detector) : detector :=
  {| scaler := s; model := model d; is_trained := is_trained d;
     last_position := last_position d; training_data := training_data d;
     anomalies := anomalies d; incorrect_anomalies := incorrect_anomalies d |}.

Definition set_model (m : Forest) (d : detector) : detector :=
  {| scaler := scaler d; model := m; is_trained := is_trained d;
     last_position := last_position d; training_data := training_data d;
     anomalies := anomalies d; incorrect_anomalies := incorrect_anomalies d |}.

Definition set_is_trained (b : bool) (d : detector) : detector :=
  {| scaler := scaler d; model := model d; is_trained := b;
     last_position := last_position d; training_data := training_data d;
     anomalies := anomalies d; incorrect_anomalies := incorrect_anomalies d |}.

Definition set_last_position (n : nat) (d : detector) : detector :=
  {| scaler := scaler d; model := model d; is_trained := is_trained d;
     last_position := n; training_data := training_data d;
     anomalies := anomalies d; incorrect_anomalies := incorrect_anomalies d |}.

Definition set_training_data (l : list json) (d : detector) : detector :=
  {| scaler := scaler d; model := model d; is_trained := is_trained d;
     last_position := last_position d; training_data := l;
     anomalies := anomalies d; incorrect_anomalies := incorrect_anomalies d |}.

Definition set_incorrect_anomalies (n : Z) (d : detector) : detector :=
  {| scaler := scaler d; model := model d; is_trained := is_trained d;
     last_position := last_position d; training_data := training_data d;
     anomalies := anomalies d; incorrect_anomalies := n |}.

(** ** The methods of [AnomalyDetector] *)

(** The body of the [for line in lines[self.last_position:]] loop. *)
Fixpoint parse_lines (ls : list line) : result (list json) :=
  match ls with
  | [] => Ok []
  | LBlank :: ls' => parse_lines ls'
  | LJson v :: ls' => let? data := parse_lines ls' in Ok (v :: data)
  | LBad :: _ => Raise JSONDecodeError
  end.

Definition load_telemetry_data : M (list json) :=
  f <- read_telemetry_file ;;
  match f with
  | None => print MsgTelemetryNotFound ;; ret []
  | Some lines =>
      d <- get_self ;;
      data <- lift (parse_lines (skipn (last_position d) lines)) ;;
      modify_self (set_last_position (List.length lines)) ;;
      ret data
  end.

(** [self.scaler.fit_transform(features)]: the scaler of [self] is fitted
    in place, or left as the failing call leaves it. *)
Definition scaler_fit_transform (features : list (list json)) : M Scaled :=
  d <- get_self ;;
  match fit_transform (scaler d) features with
  | Ok fitted =>
      modify_self (set_scaler (fst fitted)) ;;
      ret (snd fitted)
  | Raise e =>
      modify_self (set_scaler (scaler_after_error (scaler d) features)) ;;
      lift (Raise e)
  end.

(** [self.model.fit(features_scaled)], likewise. *)
Definition model_fit (features_scaled : Scaled) : M unit :=
  d <- get_self ;;
  match fit (model d) features_scaled with
  | Ok forest => modify_self (set_model forest)
  | Raise e =>
      modify_self (set_model (forest_after_error (model d) features_scaled)) ;;
      lift (Raise e)
  end.

Definition train_model (training : list json) : M bool :=
  if (Z.of_nat (List.length training) <? 120) then
    print MsgNotEnough ;; ret false
  else
    features <- lift (mapR extract_features training) ;;
    features_scaled <- scaler_fit_transform features ;;
    model_fit features_scaled ;;
    modify_self (set_is_trained true) ;;
    print (MsgTrained (List.length training)) ;;
    ret true.

(** The dict built at the top of the [if pred == -1] branch. *)
Definition make_anomaly (timestamp altitude airspeed pitch vibration
                           engineFailure : json)
    (detected_at : string) (severity : tier) : json :=
  JObj [("timestamp", timestamp);
        ("altitude", altitude);
        ("airspeed", airspeed);
        ("pitch", pitch);
        ("vibration", vibration);
        ("engineFailure", engineFailure);
        ("detected_at", JStr detected_at);
        ("severity", JStr (tier_name severity))].

(** One iteration of the loop over [zip(data_points, predictions)]; the
    local list [anomalies] is passed in and returned. *)
Definition detect_step (found : list json) (pp : json * Z) : M (list json) :=
  let (point, pred) := pp in
  if pred =? -1 then
    timestamp <- lift (getitem point "timestamp") ;;
    altitude <- lift (getitem point "altitude") ;;
    airspeed <- lift (getitem point "airspeed") ;;
    pitch <- lift (getitem point "pitch") ;;
    vibration <- lift (getitem point "vibration") ;;
    engineFailure <- lift (getitem point "engineFailure") ;;
    detected_at <- datetime_now_isoformat ;;
    severity <- lift (calculate_severity point) ;;
    let anomaly := make_anomaly timestamp altitude airspeed pitch vibration
                     engineFailure detected_at severity in
    if negb (truthy engineFailure) then
      lift (format_f vibration) ;;
      lift (format_f altitude) ;;
      lift (format_f airspeed) ;;
      lift (format_f pitch) ;;
      print (MsgNotAnomaly vibration altitude airspeed pitch) ;;
      modify_self (fun d => set_training_data (training_data d ++ [point]) d) ;;
      modify_self (fun d => set_incorrect_anomalies (incorrect_anomalies d + 1) d) ;;
      d <- get_self ;;
      (if incorrect_anomalies d >? 10 then
         print MsgRetraining ;;
         train_model (training_data d) ;;
         modify_self (set_incorrect_anomalies 0)
       else ret tt) ;;
      ret found
    else
      lift (format_f vibration) ;;
      lift (format_f altitude) ;;
      lift (format_f airspeed) ;;
      print (MsgAnomalyDetected vibration altitude airspeed) ;;
      ret (found ++ [anomaly])
  else ret found.

Fixpoint detect_loop (found : list json) (pps : list (json * Z)) : M (list json) :=
  match pps with
  | [] => ret found
  | pp :: pps' =>
      found' <- detect_step found pp ;;
      detect_loop found' pps'
  end.

Definition detect_anomalies (data_points : list json) : M (list json) :=
  d <- get_self ;;
  if negb (is_trained d) then
    print MsgNotTrained ;; ret []
  else
    features <- lift (mapR extract_features data_points) ;;
    features_scaled <- lift (transform (scaler d) features) ;;
    predictions <- lift (predict (model d) features_scaled) ;;
    detect_loop [] (combine data_points predictions).

(** [existing_anomalies + new_anomalies] *)
Definition list_concat (existing : json) (new : list json) : result (list json) :=
  match existing with
  | JArr l => Ok (l ++ new)
  | _ => Raise TypeError
  end.

(** The [try] block of [save_anomalies] with its handler: a missing file
    ([FileNotFoundError]) and a [JSONDecodeError] leave the empty list, any
    other exception of [json.load] goes on to the caller. *)
Definition load_existing_anomalies : M json :=
  f <- read_anomalies_file ;;
  match f with
  | None => ret (JArr [])
  | Some c =>
      match json_load c with
      | Ok v => ret v
      | Raise JSONDecodeError => ret (JArr [])
      | Raise e => lift (Raise e)
      end
  end.

Definition save_anomalies (new_anomalies : list json) : M unit :=
  existing_anomalies <- load_existing_anomalies ;;
  all_anomalies <- lift (list_concat existing_anomalies new_anomalies) ;;
  write_anomalies_file (Doc (JArr all_anomalies)) ;;
  print (MsgSaved (List.length new_anomalies)).

Definition clean_anomalies : M unit := write_anomalies_file Empty.

Definition is_training (d : json) : result bool :=
  let? v := dict_get d "trainingPhase" (JBool true) in Ok (truthy v).

Definition is_testing (d : json) : result bool :=
  let? v := dict_get d "trainingPhase" (JBool true) in Ok (negb (truthy v)).

Definition nonempty {A} (l : list A) : bool :=
  match l with [] => false | _ => true end.

(** The [try] block of one turn of the [while True] loop. *)
Definition cycle_body : M unit :=
  new_data <- load_telemetry_data ;;
  (if nonempty new_data then
     training <- lift (filterR is_training new_data) ;;
     testing <- lift (filterR is_testing new_data) ;;
     d <- get_self ;;
     (if nonempty training && negb (is_trained d) then
        modify_self (fun d => set_training_data (training_data d ++ training) d) ;;
        d <- get_self ;;
        train_model (training_data d) ;;
        ret tt
      else ret tt) ;;
     d <- get_self ;;
     (if nonempty testing && is_trained d then
        print (MsgDetecting (List.length testing)) ;;
        found <- detect_anomalies testing ;;
        print (MsgDetected (List.length found)) ;;
        (if nonempty found then save_anomalies found else ret tt)
      else ret tt)
   else print MsgNoNewData) ;;
  sleep 2.

(** One turn of the loop with its [except Exception] handler. *)
Definition cycle : M unit :=
  try_except cycle_body (fun e => print (MsgError e) ;; sleep 5).

Fixpoint cycles (n : nat) : M unit :=
  match n with
  | O => ret tt
  | S n' => cycle ;; cycles n'
  end.

(** [run_detection_loop], stopped after [n] turns of the loop.  The
    [KeyboardInterrupt] that ends the Python loop comes from outside and is
    not part of the model. *)
Definition run_detection_loop (n : nat) : M unit :=
  clean_anomalies ;;
  print MsgStarting ;;
  cycles n.

(** ** Vocabulary of the statements *)

Definition required_fields : list string :=
  ["altitude"; "airspeed"; "pitch"; "vibration"].

(** The labels [detect_anomalies] computes before its loop, from the scaler
    and the forest of the detector [d]. *)
Definition labels (d : detector) (data_points : list json) : result (list Z) :=
  let? features := mapR extract_features data_points in
  let? features_scaled := transform (scaler d) features in
  predict (model d) features_scaled.

(** A record labelled outlier whose [engineFailure] is falsy. *)
Definition false_positive (pp : json * Z) : bool :=
  (snd pp =? -1) &&
  match getitem (fst pp) "engineFailure" with
  | Ok v => negb (truthy v)
  | Raise _ => false
  end.

(** A record labelled outlier whose [engineFailure] is truthy. *)
Definition confirmed (pp : json * Z) : bool :=
  (snd pp =? -1) &&
  match getitem (fst pp) "engineFailure" with
  | Ok v => truthy v
  | Raise _ => false
  end.

(** The anomaly [a] was built from the record [p]. *)
Definition reports (a p : json) : Prop :=
  exists timestamp altitude airspeed pitch vibration engineFailure n severity,
    getitem p "timestamp" = Ok timestamp /\
    getitem p "altitude" = Ok altitude /\
    getitem p "airspeed" = Ok airspeed /\
    getitem p "pitch" = Ok pitch /\
    getitem p "vibration" = Ok vibration /\
    getitem p "engineFailure" = Ok engineFailure /\
    severity_of vibration = Ok severity /\
    a = make_anomaly timestamp altitude airspeed pitch vibration
          engineFailure (isoformat n) severity.

Definition is_retrain (e : event) : bool :=
  match e with
  | Print MsgRetraining => true
  | _ => false
  end.

(** How many times the console shows [Retraining model...]. *)
Definition retrains (tr : list event) : nat :=
  List.length (filter is_retrain tr).

Definition occurs_once {A} (x : A) (l : list A) : Prop :=
  exists l1 l2, l = l1 ++ x :: l2 /\ ~ In x l1 /\ ~ In x l2.

(** The value of a field that is known to be present. *)
Definition field (p : json) (k : string) : json :=
  match getitem p k with
  | Ok v => v
  | Raise _ => JNull
  end.

Definition succeeds {A} (r : result A) : bool :=
  match r with
  | Ok _ => true
  | Raise _ => false
  end.

(** A telemetry record with its six fields, the four features numeric. *)
Definition well_formed (p : json) : bool :=
  forallb (fun k => succeeds (getitem p k))
    ["timestamp"; "altitude"; "airspeed"; "pitch"; "vibration"; "engineFailure"]
  && forallb (fun k => succeeds (format_f (field p k))) required_fields
  && succeeds (severity_of (field p "vibration")).

Definition severity (p : json) : tier :=
  match severity_of (field p "vibration") with
  | Ok t => t
  | Raise _ => LOW
  end.

(** The anomaly built from a well-formed record at the [n]-th clock reading. *)
Definition anomaly_at (p : json) (n : nat) : json :=
  make_anomaly (field p "timestamp") (field p "altitude") (field p "airspeed")
    (field p "pitch") (field p "vibration") (field p "engineFailure")
    (isoformat n) (severity p).

(** The world after a well-formed record was found to be a false positive,
    before the test of the counter. *)
Definition misjudge (p : json) (w : world) : world :=
  upd_self (fun d => set_incorrect_anomalies (incorrect_anomalies d + 1) d)
    (upd_self (fun d => set_training_data (training_data d ++ [p]) d)
       (log (Print (MsgNotAnomaly (field p "vibration") (field p "altitude")
                      (field p "airspeed") (field p "pitch")))
          (tick w))).

(** The world after a well-formed record was confirmed as an anomaly. *)
Definition confirm (p : json) (w : world) : world :=
  log (Print (MsgAnomalyDetected (field p "vibration") (field p "altitude")
                (field p "airspeed")))
    (tick w).

(** What a call of [train_model] leaves alone. *)
Record same_frame (w w' : world) : Prop := {
  frame_training_data : training_data (self w') = training_data (self w);
  frame_incorrect : incorrect_anomalies (self w') = incorrect_anomalies (self w);
  frame_position : last_position (self w') = last_position (self w);
  frame_telemetry : telemetry_file w' = telemetry_file w;
  frame_anomalies : anomalies_file w' = anomalies_file w;
  frame_clock : clock w' = clock w;
  frame_trained : is_trained (self w) = true -> is_trained (self w') = true
}.

(** ** Vocabulary of the further properties *)

(** The values of the lines that hold a JSON document, in order. *)
Fixpoint json_lines (ls : list line) : list json :=
  match ls with
  | [] => []
  | LJson v :: ls' => v :: json_lines ls'
  | _ :: ls' => json_lines ls'
  end.

Definition is_bad (l : line) : bool :=
  match l with
  | LBad => true
  | _ => false
  end.

(** What Python compares with a float and formats with [.2f]. *)
Definition is_number (v : json) : bool :=
  match v with
  | JInt _ | JFloat _ | JBool _ => true
  | _ => false
  end.

Definition is_array (v : json) : bool :=
  match v with
  | JArr _ => true
  | _ => false
  end.

Definition is_sleep (e : event) : bool :=
  match e with
  | Sleep _ => true
  | Print _ => false
  end.

(** How many times the process went to sleep. *)
Definition sleeps (tr : list event) : nat :=
  List.length (filter is_sleep tr).

Definition prefix_of {A} (l l' : list A) : Prop :=
  exists extra, l' = l ++ extra.

(** What every operation of the detector keeps, [n] being the number of
    sleeps it takes. *)
Record evolves (n : nat) (w w' : world) : Prop := {
  buffer_grows : prefix_of (training_data (self w)) (training_data (self w'));
  trained_stays : is_trained (self w) = true -> is_trained (self w') = true;
  telemetry_kept : telemetry_file w' = telemetry_file w;
  store_stays : anomalies_file w <> None -> anomalies_file w' <> None;
  trace_grows : prefix_of (trace w) (trace w');
  sleeps_count : sleeps (trace w') = (sleeps (trace w) + n)%nat;
  clock_grows : (clock w <= clock w')%nat
}.

(** What training and scoring keep on top of that. *)
Record scores (w w' : world) : Prop := {
  scores_evolves : evolves 0 w w';
  store_kept : anomalies_file w' = anomalies_file w;
  position_kept : last_position (self w') = last_position (self w)
}.

Definition is_outlier (pp : json * Z) : bool := snd pp =? -1.

Definition is_dict (v : json) : bool :=
  match v with
  | JObj _ => true
  | _ => false
  end.

(** The first required field that a record lacks. *)
Definition first_missing (p : json) : option string :=
  find (fun k => negb (succeeds (getitem p k))) required_fields.

(** The entries that [save_anomalies] takes the anomalies file to hold, or
    the exception it ends with: no entry when the file is missing or
    [json.load] raises [JSONDecodeError], the exception of [json.load] when
    it raises another one, and [TypeError] when the file holds a document
    that is not an array. *)
Definition stored (f : option content) : result (list json) :=
  match f with
  | None => Ok []
  | Some c =>
      match json_load c with
      | Ok (JArr l) => Ok l
      | Ok _ => Raise TypeError
      | Raise JSONDecodeError => Ok []
      | Raise e => Raise e
      end
  end.

Definition preserves {A} (R : world -> world -> Prop) (m : M A) : Prop :=
  forall w r w', m w = (r, w') -> R w w'.

End Detector.

(** ** A small instance to run the model on *)

Module Toy.

Definition vibration_of (row : list json) : json := nth 3 row JNull.

Definition exceeds (c : Z) (row : list json) : bool :=
  match gt_lit (vibration_of row) c with
  | Ok b => b
  | Raise _ => false
  end.

(** The band just above the vibration of a row. *)
Definition level (row : list json) : Z :=
  if exceeds 8 row then 10
  else if exceeds 6 row then 8
  else if exceeds 4 row then 6
  else 4.

(** A one-dimensional stand-in for the estimators: the forest is a
    vibration threshold, fitted as the highest band seen in the sample;
    a row is an outlier when its vibration exceeds the threshold. *)
Definition threshold_sklearn : Sklearn :=
  {| Scaler := unit;
     Forest := Z;
     Scaled := list (list json);
     StandardScaler := tt;
     IsolationForest := 0;
     fit_transform := fun _ rows => Ok (tt, rows);
     scaler_after_error := fun _ _ => tt;
     transform := fun _ rows =>
       match rows with
       | [] => Raise ValueError
       | _ => Ok rows
       end;
     fit := fun _ rows => Ok (fold_right Z.max 4 (map level rows));
     forest_after_error := fun _ _ => 0;
     predict := fun th rows =>
       Ok (map (fun row => if exceeds th row then -1 else 1) rows) |}.

Definition wall_clock : Datetime :=
  {| isoformat := fun n => String.append "T+" (String (Ascii.ascii_of_nat (48 + n)) "") |}.

Definition record (timestamp : Z) (vibration : Z) (engineFailure : json)
    (trainingPhase : bool) : json :=
  JObj [("timestamp", JInt timestamp);
        ("altitude", JFloat (float_lit 30000));
        ("airspeed", JFloat (float_lit 450));
        ("pitch", JFloat (float_lit 2));
        ("vibration", JFloat (float_lit vibration));
        ("engineFailure", engineFailure);
        ("trainingPhase", JBool trainingPhase)].

(** The same record without its [engineFailure] field. *)
Definition unlabelled (timestamp : Z) (vibration : Z) : json :=
  JObj [("timestamp", JInt timestamp);
        ("altitude", JFloat (float_lit 30000));
        ("airspeed", JFloat (float_lit 450));
        ("pitch", JFloat (float_lit 2));
        ("vibration", JFloat (float_lit vibration));
        ("trainingPhase", JBool false)].

(** A record that lacks [altitude]. *)
Definition malformed (timestamp : Z) : json :=
  JObj [("timestamp", JInt timestamp);
        ("airspeed", JFloat (float_lit 450));
        ("pitch", JFloat (float_lit 2));
        ("vibration", JFloat (float_lit 9));
        ("engineFailure", JBool true);
        ("trainingPhase", JBool false)].

Definition detector_ : Type := @detector threshold_sklearn.
Definition world_ : Type := @world threshold_sklearn.

(** A detector already trained with threshold [4], with a given buffer and
    count of misjudged outliers. *)
Definition trained (buffer : list json) (misjudged : Z) : detector_ :=
  {| scaler := tt : @Scaler threshold_sklearn;
     model := 4 : @Forest threshold_sklearn;
     is_trained := true;
     last_position := 0;
     training_data := buffer;
     anomalies := [];
     incorrect_anomalies := misjudged |}.

Definition fresh (d : detector_) : world_ :=
  {| self := d;
     telemetry_file := None;
     anomalies_file := None;
     clock := 0;
     trace := [] |}.

Definition with_files (d : detector_) (telemetry : list line)
    (anomalies_store : option content) : world_ :=
  {| self := d;
     telemetry_file := Some telemetry;
     anomalies_file := anomalies_store;
     clock := 0;
     trace := [] |}.

(** The records of the scenarios: a quiet training record, an engine
    failure at 9 g, a 9 g reading without engine failure, and an engine
    failure at 7 g. *)
Definition baseline : json := record 0 2 (JBool false) true.
Definition alarm : json := record 1 9 (JBool true) false.
Definition false_alarm : json := record 2 9 (JBool false) false.
Definition late_alarm : json := record 3 7 (JBool true) false.

Definition untrained : world_ := fresh init.

(** A trained detector with an empty buffer, and one that is one false
    positive and one record away from a retrain that fits. *)
Definition watching : world_ := fresh (trained [] 0).
Definition about_to_retrain : world_ := fresh (trained (repeat baseline 119) 10).

(** The anomalies that report [alarm] and [late_alarm]. *)
Definition reported_alarm : json := anomaly_at (dt := wall_clock) alarm 0.
Definition reported_late_alarm : json :=
  anomaly_at (dt := wall_clock) late_alarm 1.

(** Telemetry files of two turns of the loop: a malformed record followed
    by an engine failure, and the engine failure alone. *)
Definition spoiled_feed : world_ :=
  with_files (trained [] 0) [LJson (malformed 0); LJson alarm] None.
Definition clean_feed : world_ :=
  with_files (trained [] 0) [LJson alarm] None.

(** The same turn with an anomalies file that is not UTF-8. *)
Definition clean_feed_mangled_store : world_ :=
  with_files (trained [] 0) [LJson alarm]
    (Some (Unreadable UnicodeDecodeError)).

(** Worlds for the turns of the loop: the detector [d] at position [n] of
    a telemetry file, with no anomalies file. *)
Definition reading_at (d : detector_) (n : nat) (telemetry : list line) : world_ :=
  with_files (set_last_position n d) telemetry None.

(** A stand-in that fails as the library does.  The scaler is unfitted or
    fitted on a number of rows; it refuses a sample with a value that is
    not a number, and is then left unfitted.  The forest is unfitted or a
    vibration threshold; it refuses a sample with a NaN vibration, and is
    then left unfitted too. *)
Definition nan_row (row : list json) : bool :=
  match vibration_of row with
  | JFloat S754_nan => true
  | _ => false
  end.

Definition strict_sklearn : Sklearn :=
  {| Scaler := option nat;
     Forest := option Z;
     Scaled := list (list json);
     StandardScaler := None;
     IsolationForest := None;
     fit_transform := fun _ rows =>
       if forallb (forallb is_number) rows
       then Ok (Some (List.length rows), rows)
       else Raise ValueError;
     scaler_after_error := fun _ _ => None;
     transform := fun s rows =>
       match s with
       | None => Raise (LibraryError 0)
       | Some _ =>
           if forallb (forallb is_number) rows then Ok rows
           else Raise ValueError
       end;
     fit := fun _ rows =>
       if existsb nan_row rows then Raise ValueError
       else Ok (Some (fold_right Z.max 4 (map level rows)));
     forest_after_error := fun _ _ => None;
     predict := fun f rows =>
       match f with
       | None => Raise (LibraryError 0)
       | Some th => Ok (map (fun row => if exceeds th row then -1 else 1) rows)
       end |}.

(** A record whose altitude is a string, and one whose vibration is NaN. *)
Definition garbled : json :=
  JObj [("timestamp", JInt 4);
        ("altitude", JStr "n/a");
        ("airspeed", JFloat (float_lit 450));
        ("pitch", JFloat (float_lit 2));
        ("vibration", JFloat (float_lit 2));
        ("engineFailure", JBool false);
        ("trainingPhase", JBool true)].

Definition blind : json :=
  JObj [("timestamp", JInt 5);
        ("altitude", JFloat (float_lit 30000));
        ("airspeed", JFloat (float_lit 450));
        ("pitch", JFloat (float_lit 2));
        ("vibration", JFloat S754_nan);
        ("engineFailure", JBool false);
        ("trainingPhase", JBool true)].

(** A detector of the strict stand-in, trained on 120 rows with threshold
    4, in a world without files. *)
Definition strict_trained : @world strict_sklearn :=
  {| self := {| scaler := Some 120%nat : @Scaler strict_sklearn;
                model := Some 4 : @Forest strict_sklearn;
                is_trained := true;
                last_position := 0;
                training_data := [];
                anomalies := [];
                incorrect_anomalies := 0 |};
     telemetry_file := None;
     anomalies_file := None;
     clock := 0;
     trace := [] |}.

(** Samples of 120 records, the last one refused by the scaler or by the
    forest of the strict stand-in. *)
Definition noisy_sample : list json := repeat baseline 119 ++ [garbled].
Definition blind_sample : list json := repeat baseline 119 ++ [blind].

(** A world whose anomalies file is not UTF-8. *)
Definition mangled_store : world_ :=
  store (Unreadable UnicodeDecodeError) watching.

(** A file whose first two lines were consumed, followed by a blank line
    and an engine failure. *)
Definition consumed : list line := [LBad; LJson baseline].
Definition arrived : list line := [LBlank; LJson alarm].

End Toy.

(** * Properties *)

(** ** Severity: comparisons of binary64 values *)

Ltac compare_cases :=
  repeat match goal with
  | H : context [Z.compare ?x ?y] |- _ =>
      destruct (Z.compare_spec x y); subst
  | |- context [Z.compare ?x ?y] =>
      destruct (Z.compare_spec x y); subst
  | H : context [Pos.compare ?x ?y] |- _ =>
      destruct (Pos.compare_spec x y); subst
  | |- context [Pos.compare ?x ?y] =>
      destruct (Pos.compare_spec x y); subst
  end.

Lemma SFltb_leb_trans a b c :
  SFltb a b = true -> SFleb b c = true -> SFltb a c = true.
Proof.
  unfold SFltb, SFleb, SFcompare.
  destruct a as [sa|sa| |sa ma ea], b as [sb|sb| |sb mb eb],
    c as [sc|sc| |sc mc ec];
    try destruct sa; try destruct sb; try destruct sc;
    try discriminate; try reflexivity;
    change (Pos.compare_cont Eq) with Pos.compare;
    intros H1 H2; compare_cases; simpl in *;
    try discriminate; try reflexivity; try lia.
Qed.

Lemma severity_float_total f : exists t, severity_of (JFloat f) = Ok t.
Proof.
  unfold severity_of, gt_lit, bindR.
  destruct (SFltb (float_lit 8) f); [eauto|].
  destruct (SFltb (float_lit 6) f); [eauto|].
  destruct (SFltb (float_lit 4) f); eauto.
Qed.

Lemma severity_float_mono f1 f2 t1 t2 :
  SFleb f1 f2 = true ->
  severity_of (JFloat f1) = Ok t1 ->
  severity_of (JFloat f2) = Ok t2 ->
  tier_rank t1 <= tier_rank t2.
Proof.
  unfold severity_of, gt_lit, bindR. intros Hle.
  assert (T : forall c, SFltb (float_lit c) f1 = true -> SFltb (float_lit c) f2 = true)
    by (intros c Hc; exact (SFltb_leb_trans _ _ _ Hc Hle)).
  destruct (SFltb (float_lit 8) f1) eqn:E8.
  { rewrite (T 8 E8). intros [= <-] [= <-]. simpl; lia. }
  destruct (SFltb (float_lit 6) f1) eqn:E6.
  { rewrite (T 6 E6). intros [= <-].
    destruct (SFltb (float_lit 8) f2); intros [= <-]; simpl; lia. }
  destruct (SFltb (float_lit 4) f1) eqn:E4.
  { rewrite (T 4 E4). intros [= <-].
    destruct (SFltb (float_lit 8) f2); [intros [= <-]; simpl; lia|].
    destruct (SFltb (float_lit 6) f2); intros [= <-]; simpl; lia. }
  intros [= <-].
  destruct (SFltb (float_lit 8) f2); [intros [= <-]; simpl; lia|].
  destruct (SFltb (float_lit 6) f2); [intros [= <-]; simpl; lia|].
  destruct (SFltb (float_lit 4) f2); intros [= <-]; simpl; lia.
Qed.

Lemma severity_int_mono z1 z2 t1 t2 :
  z1 <= z2 ->
  severity_of (JInt z1) = Ok t1 ->
  severity_of (JInt z2) = Ok t2 ->
  tier_rank t1 <= tier_rank t2.
Proof.
  unfold severity_of, gt_lit, bindR. intros Hle.
  destruct (Z.ltb_spec 8 z1), (Z.ltb_spec 6 z1), (Z.ltb_spec 4 z1),
    (Z.ltb_spec 8 z2), (Z.ltb_spec 6 z2), (Z.ltb_spec 4 z2);
    intros [= <-] [= <-]; cbn; lia.
Qed.

Lemma severity_reading_total v :
  is_reading v = true -> exists t, severity_of v = Ok t.
Proof.
  destruct v; try discriminate; intros _; [|apply severity_float_total].
  unfold severity_of, gt_lit, bindR.
  destruct (8 <? z); [eauto|]. destruct (6 <? z); [eauto|].
  destruct (4 <? z); eauto.
Qed.

(** C7: [calculate_severity] returns a tier for every numeric vibration
    reading, the tier never decreases when the reading grows (LOW < MEDIUM <
    HIGH < CRITICAL), and the readings 9.0, 7.0, 5.0 and 3.0 are classified
    CRITICAL, HIGH, MEDIUM and LOW. *)
Theorem severity_monotone :
  (forall p v, getitem p "vibration" = Ok v -> is_reading v = true ->
     exists t, calculate_severity p = Ok t) /\
  (forall p1 p2 v1 v2 t1 t2,
     getitem p1 "vibration" = Ok v1 ->
     getitem p2 "vibration" = Ok v2 ->
     reading_le v1 v2 ->
     calculate_severity p1 = Ok t1 ->
     calculate_severity p2 = Ok t2 ->
     tier_rank t1 <= tier_rank t2) /\
  (forall p, getitem p "vibration" = Ok (JFloat (float_lit 9)) ->
     calculate_severity p = Ok CRITICAL) /\
  (forall p, getitem p "vibration" = Ok (JFloat (float_lit 7)) ->
     calculate_severity p = Ok HIGH) /\
  (forall p, getitem p "vibration" = Ok (JFloat (float_lit 5)) ->
     calculate_severity p = Ok MEDIUM) /\
  (forall p, getitem p "vibration" = Ok (JFloat (float_lit 3)) ->
     calculate_severity p = Ok LOW).
Proof.
  unfold calculate_severity.
  split; [|split; [|repeat split]].
  - intros p v -> Hv. exact (severity_reading_total v Hv).
  - intros p1 p2 v1 v2 t1 t2 -> -> Hle. cbn [bindR].
    destruct v1, v2; try contradiction; cbn [reading_le] in Hle.
    + now apply severity_int_mono.
    + now apply severity_float_mono.
  - intros p ->. reflexivity.
  - intros p ->. reflexivity.
  - intros p ->. reflexivity.
  - intros p ->. reflexivity.
Qed.

(** ** The detector *)

Section Proofs.

Context {sk : Sklearn} {dt : Datetime}.

Ltac exec_in H :=
  cbv beta iota delta [bind lift ret print sleep emit modify_self get_self
                       datetime_now_isoformat read_anomalies_file
                       write_anomalies_file read_telemetry_file try_except
                       scaler_fit_transform model_fit
                       load_existing_anomalies] in H.

Ltac exec :=
  cbv beta iota delta [bind lift ret print sleep emit modify_self get_self
                       datetime_now_isoformat read_anomalies_file
                       write_anomalies_file read_telemetry_file try_except
                       scaler_fit_transform model_fit
                       load_existing_anomalies].

Ltac world_simpl :=
  cbn [self trace clock telemetry_file anomalies_file log tick upd_self store
       misjudge confirm training_data incorrect_anomalies last_position
       is_trained scaler model anomalies set_incorrect_anomalies
       set_training_data set_last_position set_is_trained set_model
       set_scaler] in *.

Ltac conjs := repeat match goal with |- _ /\ _ => split end.

Ltac split_result H :=
  match type of H with
  | context [match ?r with Ok _ => _ | Raise _ => _ end] =>
      let E := fresh "E" in
      destruct r eqn:E; cbv beta iota in H; try discriminate H
  end.

Lemma retrains_snoc tr e :
  retrains (tr ++ [e]) = (retrains tr + (if is_retrain e then 1 else 0))%nat.
Proof.
  unfold retrains. rewrite filter_app, length_app. simpl.
  destruct (is_retrain e); reflexivity.
Qed.

Lemma train_model_short training w :
  Z.of_nat (List.length training) < 120 ->
  train_model training w = (Ok false, log (Print MsgNotEnough) w).
Proof.
  intros H. unfold train_model.
  destruct (Z.ltb_spec (Z.of_nat (List.length training)) 120); [reflexivity|lia].
Qed.

Lemma train_model_frame training w r w' :
  train_model training w = (r, w') ->
  same_frame w w' /\ retrains (trace w') = retrains (trace w).
Proof.
  unfold train_model.
  destruct (Z.of_nat (List.length training) <? 120).
  - intros [= <- <-]. split; [constructor; auto|].
    simpl. rewrite retrains_snoc. simpl. lia.
  - exec. intros H.
    destruct (mapR extract_features training);
      [|injection H as <- <-; split; [constructor; auto|reflexivity]].
    cbv beta iota in H.
    destruct (fit_transform (scaler (self w)) a) as [[s x]|];
      cbv beta iota in H;
      [|injection H as <- <-; split; [constructor; auto|reflexivity]].
    simpl in H.
    destruct (fit (model (self w)) x); cbv beta iota in H;
      injection H as <- <-; (split; [constructor; auto|]); simpl;
      rewrite ?retrains_snoc; simpl; lia.
Qed.

Lemma well_formed_fields p :
  well_formed p = true ->
  getitem p "timestamp" = Ok (field p "timestamp") /\
  getitem p "altitude" = Ok (field p "altitude") /\
  getitem p "airspeed" = Ok (field p "airspeed") /\
  getitem p "pitch" = Ok (field p "pitch") /\
  getitem p "vibration" = Ok (field p "vibration") /\
  getitem p "engineFailure" = Ok (field p "engineFailure") /\
  format_f (field p "altitude") = Ok tt /\
  format_f (field p "airspeed") = Ok tt /\
  format_f (field p "pitch") = Ok tt /\
  format_f (field p "vibration") = Ok tt /\
  calculate_severity p = Ok (severity p).
Proof.
  unfold well_formed, required_fields, calculate_severity, severity.
  cbn [forallb]. rewrite !andb_true_iff.
  assert (G : forall k, succeeds (getitem p k) = true ->
                        getitem p k = Ok (field p k)).
  { intros k. unfold field. destruct (getitem p k); [reflexivity|discriminate]. }
  assert (F : forall v, succeeds (format_f v) = true -> format_f v = Ok tt).
  { intros v. destruct (format_f v) as [[]|]; [reflexivity|discriminate]. }
  intros [[(T & A & S & P & V & E & _) (FA & FS & FP & FV & _)] Sev].
  rewrite (G _ V). cbn [bindR].
  destruct (severity_of (field p "vibration")); [|discriminate].
  repeat split; auto.
Qed.

Ltac feed H := rewrite H; cbv beta iota.

Lemma detect_step_false_positive found p w :
  well_formed p = true ->
  truthy (field p "engineFailure") = false ->
  detect_step found (p, -1) w =
    if incorrect_anomalies (self w) + 1 >? 10 then
      match train_model (training_data (self w) ++ [p])
              (log (Print MsgRetraining) (misjudge p w)) with
      | (Ok _, w2) => (Ok found, upd_self (set_incorrect_anomalies 0) w2)
      | (Raise e, w2) => (Raise e, w2)
      end
    else (Ok found, misjudge p w).
Proof.
  intros WF Hef.
  destruct (well_formed_fields p WF)
    as (T & A & S & P & V & E & FA & FS & FP & FV & Sev).
  unfold detect_step. rewrite Z.eqb_refl. exec.
  feed T. feed A. feed S. feed P. feed V. feed E. feed Sev.
  rewrite Hef. cbn [negb]. feed FV. feed FA. feed FS. feed FP.
  fold (misjudge p w).
  change (incorrect_anomalies (self (misjudge p w)))
    with (incorrect_anomalies (self w) + 1).
  change (training_data (self (misjudge p w)))
    with (training_data (self w) ++ [p]).
  destruct (incorrect_anomalies (self w) + 1 >? 10); [|reflexivity].
  fold (log (Print MsgRetraining) (misjudge p w)).
  destruct (train_model _ _) as [[b|e] w2]; reflexivity.
Qed.

Lemma detect_step_confirmed found p w :
  well_formed p = true ->
  truthy (field p "engineFailure") = true ->
  detect_step found (p, -1) w =
    (Ok (found ++ [anomaly_at p (clock w)]), confirm p w).
Proof.
  intros WF Hef.
  destruct (well_formed_fields p WF)
    as (T & A & S & P & V & E & FA & FS & FP & FV & Sev).
  unfold detect_step. rewrite Z.eqb_refl. exec.
  feed T. feed A. feed S. feed P. feed V. feed E. feed Sev.
  rewrite Hef. cbn [negb]. feed FV. feed FA. feed FS.
  reflexivity.
Qed.

Lemma detect_step_inlier found p pred w :
  pred <> -1 -> detect_step found (p, pred) w = (Ok found, w).
Proof.
  intros H. unfold detect_step.
  destruct (Z.eqb_spec pred (-1)); [contradiction|reflexivity].
Qed.


Lemma detect_step_outlier_inv found p w found' w' :
  detect_step found (p, -1) w = (Ok found', w') ->
  exists ef,
    getitem p "engineFailure" = Ok ef /\
    if truthy ef then
      (exists a, reports a p /\ found' = found ++ [a]) /\
      exists m, m <> MsgRetraining /\ w' = log (Print m) (tick w)
    else well_formed p = true.
Proof.
  intros H. unfold detect_step in H. rewrite Z.eqb_refl in H. exec_in H.
  do 6 split_result H.
  unfold calculate_severity in H. rewrite E3 in H. cbn [bindR] in H.
  split_result H.
  exists a4. split; [reflexivity|].
  destruct (truthy a4) eqn:Hef; cbn [negb] in H.
  - do 3 split_result H. injection H as <- <-. split.
    + eexists. split; [|reflexivity].
      exists a, a0, a1, a2, a3, a4, (clock w), a5. repeat split; assumption.
    + eexists. split; [|reflexivity]. discriminate.
  - do 4 split_result H. clear H.
    unfold well_formed, required_fields, field. cbn [forallb].
    rewrite E, E0, E1, E2, E3, E4, E5, E6, E7, E8, E9. reflexivity.
Qed.

(** The effect of one turn of the loop that returns normally. *)
Lemma detect_step_effect found pp w found' w' :
  detect_step found pp w = (Ok found', w') ->
  let c := incorrect_anomalies (self w) in
  training_data (self w') =
    training_data (self w) ++ (if false_positive pp then [fst pp] else []) /\
  (exists found1,
      found' = found ++ found1 /\
      Forall2 (fun q a => reports a (fst q))
        (if confirmed pp then [pp] else []) found1) /\
  incorrect_anomalies (self w') =
    (if false_positive pp then if c + 1 >? 10 then 0 else c + 1 else c) /\
  retrains (trace w') =
    (retrains (trace w) +
     (if false_positive pp then if c + 1 >? 10 then 1 else 0 else 0))%nat /\
  last_position (self w') = last_position (self w) /\
  telemetry_file w' = telemetry_file w /\
  anomalies_file w' = anomalies_file w /\
  (is_trained (self w) = true -> is_trained (self w') = true).
Proof.
  destruct pp as [p pred]. intros H c.
  unfold false_positive, confirmed. cbn [fst snd].
  destruct (Z.eqb_spec pred (-1)) as [->|Hne]; cbn [andb].
  - destruct (detect_step_outlier_inv _ _ _ H) as (ef & Eef & Hcase).
    rewrite Eef.
    destruct (truthy ef) eqn:Hef; cbn [negb].
    + destruct Hcase as [(a & Ha & ->) (m & Hm & ->)].
      world_simpl. rewrite app_nil_r, retrains_snoc. repeat split; auto.
      * exists [a]. split; [reflexivity|]. repeat constructor. exact Ha.
      * destruct m; try contradiction; simpl; lia.
    + assert (Hf : truthy (field p "engineFailure") = false)
        by (unfold field; rewrite Eef; exact Hef).
      rewrite (detect_step_false_positive found p w Hcase Hf) in H.
      fold c in H.
      assert (R0 : retrains (trace (misjudge p w)) = retrains (trace w)).
      { world_simpl. rewrite retrains_snoc. simpl. lia. }
      destruct (c + 1 >? 10).
      * destruct (train_model _ _) as [[b|e] w2] eqn:Etrain; [|discriminate].
        injection H as <- <-.
        destruct (train_model_frame _ _ Etrain) as [[] R].
        rewrite <- R0.
        world_simpl. rewrite retrains_snoc in R. cbn [is_retrain] in R.
        repeat split; try assumption; try congruence.
        exists []. split; [symmetry; apply app_nil_r | constructor].
      * injection H as <- <-. rewrite <- R0. world_simpl.
        repeat split; auto.
        exists []. split; [symmetry; apply app_nil_r | constructor].
  - rewrite (detect_step_inlier found p w Hne) in H. injection H as <- <-.
    rewrite app_nil_r. repeat split; auto.
    exists []. split; [symmetry; apply app_nil_r | constructor].
Qed.


(** The effect of the whole loop, by induction on the zipped batch. *)
Lemma detect_loop_effect pps : forall found w found' w',
  detect_loop found pps w = (Ok found', w') ->
  training_data (self w') =
    training_data (self w) ++ map fst (filter false_positive pps) /\
  (exists found1,
      found' = found ++ found1 /\
      Forall2 (fun q a => reports a (fst q)) (filter confirmed pps) found1) /\
  last_position (self w') = last_position (self w) /\
  telemetry_file w' = telemetry_file w /\
  anomalies_file w' = anomalies_file w /\
  (is_trained (self w) = true -> is_trained (self w') = true) /\
  (0 <= incorrect_anomalies (self w) <= 10 ->
   let n := incorrect_anomalies (self w)
            + Z.of_nat (List.length (filter false_positive pps)) in
   incorrect_anomalies (self w') = n mod 11 /\
   Z.of_nat (retrains (trace w')) = Z.of_nat (retrains (trace w)) + n / 11).
Proof.
  induction pps as [|pp pps IH]; intros found w found' w' H.
  - injection H as <- <-. cbn [filter map List.length].
    rewrite app_nil_r, Z.add_0_r. conjs; auto.
    + exists []. split; [symmetry; apply app_nil_r | constructor].
    + intros Hc. cbv zeta. rewrite Z.mod_small, Z.div_small by lia. lia.
  - cbn [detect_loop] in H. unfold bind in H.
    destruct (detect_step found pp w) as [[found1|e] w1] eqn:Estep;
      [|discriminate].
    destruct (detect_step_effect _ _ _ Estep)
      as (T1 & (f1 & -> & A1) & C1 & R1 & P1 & F1 & S1 & I1).
    destruct (IH _ _ _ _ H)
      as (T2 & (f2 & -> & A2) & P2 & F2 & S2 & I2 & CR).
    cbn [filter].
    conjs; try congruence; auto.
    + rewrite T2, T1, <- app_assoc.
      destruct (false_positive pp); reflexivity.
    + exists (f1 ++ f2). split; [symmetry; apply app_assoc|].
      destruct (confirmed pp); [|inversion A1; assumption].
      inversion A1 as [|? a ? l' Ha Hl]; subst. inversion Hl; subst.
      constructor; assumption.
    + intros Hc. cbv zeta.
      assert (Hc1 : 0 <= incorrect_anomalies (self w1) <= 10).
      { rewrite C1. destruct (false_positive pp); [|assumption].
        destruct (Z.gtb_spec (incorrect_anomalies (self w) + 1) 10); lia. }
      destruct (CR Hc1) as [Hn Hr]. cbv zeta in Hn, Hr.
      rewrite Hn, Hr, R1, C1. clear Hn Hr CR.
      destruct (false_positive pp); cbn [List.length];
        [|rewrite Nat.add_0_r; split; reflexivity].
      set (k := Z.of_nat (List.length (filter false_positive pps))).
      rewrite Nat2Z.inj_succ, Nat2Z.inj_add. fold k.
      destruct (Z.gtb_spec (incorrect_anomalies (self w) + 1) 10).
      * replace (incorrect_anomalies (self w)) with 10 by lia.
        replace (10 + Z.succ k) with (k + 1 * 11) by lia.
        rewrite Z.mod_add, Z.div_add by lia. cbn. split; lia.
      * replace (incorrect_anomalies (self w) + Z.succ k)
          with (incorrect_anomalies (self w) + 1 + k) by lia.
        cbn. split; lia.
Qed.


Lemma detect_anomalies_untrained data_points w :
  is_trained (self w) = false ->
  detect_anomalies data_points w = (Ok [], log (Print MsgNotTrained) w).
Proof.
  intros H. unfold detect_anomalies. exec. rewrite H. reflexivity.
Qed.

Lemma detect_anomalies_trained data_points w :
  is_trained (self w) = true ->
  detect_anomalies data_points w =
    match labels (self w) data_points with
    | Ok predictions => detect_loop [] (combine data_points predictions) w
    | Raise e => (Raise e, w)
    end.
Proof.
  intros H. unfold detect_anomalies, labels. exec. rewrite H. cbn [negb].
  destruct (mapR extract_features data_points) as [features|]; [|reflexivity].
  cbn [bindR].
  destruct (transform (scaler (self w)) features) as [scaled|]; [|reflexivity].
  cbn [bindR].
  destruct (predict (model (self w)) scaled); reflexivity.
Qed.

Lemma detect_anomalies_loop data_points w predictions found w' :
  is_trained (self w) = true ->
  labels (self w) data_points = Ok predictions ->
  detect_anomalies data_points w = (Ok found, w') ->
  detect_loop [] (combine data_points predictions) w = (Ok found, w').
Proof.
  intros T L. rewrite (detect_anomalies_trained _ _ T), L. auto.
Qed.

Lemma make_anomaly_flag t a s p v e n sev t' a' s' p' v' e' n' sev' :
  make_anomaly t a s p v e n sev = make_anomaly t' a' s' p' v' e' n' sev' ->
  e = e'.
Proof. unfold make_anomaly. congruence. Qed.

Lemma reports_flag a p q :
  reports a p -> reports a q ->
  getitem p "engineFailure" = getitem q "engineFailure".
Proof.
  intros (t & al & s & pi & v & e & n & sev & _ & _ & _ & _ & _ & E & _ & ->).
  intros (t' & al' & s' & pi' & v' & e' & n' & sev' &
          _ & _ & _ & _ & _ & E' & _ & Heq).
  rewrite E, E'. f_equal. eapply make_anomaly_flag; exact Heq.
Qed.

Lemma Forall2_In_r {A B} (R : A -> B -> Prop) l l' b :
  Forall2 R l l' -> In b l' -> exists a, In a l /\ R a b.
Proof.
  induction 1 as [|x y l l' Hxy _ IH]; intros Hin; [contradiction|].
  destruct Hin as [->|Hin].
  - exists x. split; [left; reflexivity|assumption].
  - destruct (IH Hin) as (a & Ha & HR). exists a. split; [right|]; assumption.
Qed.

Lemma Forall2_In_l {A B} (R : A -> B -> Prop) l l' a :
  Forall2 R l l' -> In a l -> exists b, In b l' /\ R a b.
Proof.
  induction 1 as [|x y l l' Hxy _ IH]; intros Hin; [contradiction|].
  destruct Hin as [->|Hin].
  - exists y. split; [left; reflexivity|assumption].
  - destruct (IH Hin) as (b & Hb & HR). exists b. split; [right|]; assumption.
Qed.

Lemma combine_middle {A B} (l1 : list A) x l2 : forall (ys : list B),
  exists ys1 ys2,
    combine (l1 ++ x :: l2) ys = combine l1 ys1 ++ combine (x :: l2) ys2.
Proof.
  induction l1 as [|a l1 IH]; intros ys.
  - exists [], ys. reflexivity.
  - destruct ys as [|y ys].
    + exists [], []. reflexivity.
    + destruct (IH ys) as (ys1 & ys2 & E).
      exists (y :: ys1), ys2. cbn. rewrite E. reflexivity.
Qed.

Lemma In_fst_filter {A B} (f : A * B -> bool) (l : list A) (ys : list B) x :
  In x (map fst (filter f (combine l ys))) -> In x l.
Proof.
  intros H. apply in_map_iff in H. destruct H as ([a b] & <- & H).
  apply filter_In in H. destruct H as [H _].
  exact (in_combine_l _ _ _ _ H).
Qed.

(** A record that occurs once in the batch and is a false positive occurs
    once among the records the loop appends to the buffer. *)
Lemma false_positive_once p data_points predictions :
  occurs_once p data_points ->
  In (p, -1) (combine data_points predictions) ->
  false_positive (p, -1) = true ->
  occurs_once p (map fst (filter false_positive (combine data_points predictions))).
Proof.
  intros (l1 & l2 & -> & N1 & N2) Hin Hfp.
  destruct (combine_middle l1 p l2 predictions) as (ys1 & ys2 & E).
  rewrite E in *. clear E.
  apply in_app_or in Hin. destruct Hin as [Hin|Hin];
    [elim N1; exact (in_combine_l _ _ _ _ Hin)|].
  destruct ys2 as [|z ys2]; [contradiction|].
  cbn [combine] in *.
  destruct Hin as [Hin|Hin]; [|elim N2; exact (in_combine_l _ _ _ _ Hin)].
  injection Hin as ->.
  rewrite filter_app. cbn [filter]. rewrite Hfp, map_app. cbn [map fst].
  eexists _, _. split; [reflexivity|].
  split; intros H; apply In_fst_filter in H; contradiction.
Qed.

Lemma occurs_once_app_l {A} (x : A) l0 l :
  ~ In x l0 -> occurs_once x l -> occurs_once x (l0 ++ l).
Proof.
  intros N (l1 & l2 & -> & N1 & N2).
  exists (l0 ++ l1), l2. rewrite <- app_assoc. split; [reflexivity|].
  split; [|assumption].
  intros H. apply in_app_or in H. tauto.
Qed.


(** C5: [train_model] on fewer than 120 records reports the failure (it
    returns [False] after the message that 120 points are needed) and leaves
    the detector, with its scaler, forest and trained flag, as it was; on
    exactly 120 records that the estimators accept it returns [True] and
    sets [is_trained]. *)
Theorem train_model_threshold :
  (forall training w,
     Z.of_nat (List.length training) < 120 ->
     exists w',
       train_model training w = (Ok false, w') /\
       self w' = self w /\
       trace w' = trace w ++ [Print MsgNotEnough]) /\
  (forall training w features s x forest,
     List.length training = 120%nat ->
     mapR extract_features training = Ok features ->
     fit_transform (scaler (self w)) features = Ok (s, x) ->
     fit (model (self w)) x = Ok forest ->
     exists w',
       train_model training w = (Ok true, w') /\
       is_trained (self w') = true /\
       scaler (self w') = s /\
       model (self w') = forest).
Proof.
  split.
  - intros training w H. eexists. split; [apply train_model_short; exact H|].
    split; reflexivity.
  - intros training w features s x forest Hlen Hf Hs Hm.
    assert (Hge : (Z.of_nat (List.length training) <? 120) = false)
      by (rewrite Hlen; reflexivity).
    unfold train_model. rewrite Hge. exec.
    feed Hf. feed Hs. world_simpl. cbn [fst snd]. feed Hm.
    eexists. split; [reflexivity|]. world_simpl. auto.
Qed.

(** C3, as the code has it: on an untrained detector [detect_anomalies]
    raises nothing; it prints that the model is not trained and returns the
    empty list, whatever the batch, and leaves the detector as it was. *)
Theorem detect_untrained_returns_empty data_points w :
  is_trained (self w) = false ->
  exists w',
    detect_anomalies data_points w = (Ok [], w') /\
    self w' = self w /\
    trace w' = trace w ++ [Print MsgNotTrained].
Proof.
  intros H. eexists. split; [apply detect_anomalies_untrained; exact H|].
  split; reflexivity.
Qed.

(** C6: when the eleventh false positive asks for a retrain and the buffer,
    the new record included, has fewer than 120 records, the scaler, the
    forest and the trained flag stay as they were and the counter of
    misjudged outliers is reset to zero all the same. *)
Theorem retrain_short_buffer_resets_counter found p w :
  well_formed p = true ->
  truthy (field p "engineFailure") = false ->
  incorrect_anomalies (self w) + 1 > 10 ->
  Z.of_nat (List.length (training_data (self w) ++ [p])) < 120 ->
  exists w',
    detect_step found (p, -1) w = (Ok found, w') /\
    scaler (self w') = scaler (self w) /\
    model (self w') = model (self w) /\
    is_trained (self w') = is_trained (self w) /\
    training_data (self w') = training_data (self w) ++ [p] /\
    incorrect_anomalies (self w') = 0 /\
    retrains (trace w') = S (retrains (trace w)).
Proof.
  intros WF Hef Hc Hlen.
  rewrite (detect_step_false_positive found p w WF Hef).
  destruct (Z.gtb_spec (incorrect_anomalies (self w) + 1) 10); [|lia].
  rewrite (train_model_short _ _ Hlen).
  eexists. split; [reflexivity|]. world_simpl.
  rewrite !retrains_snoc. cbn [is_retrain]. conjs; auto. lia.
Qed.

(** C8, as the code has it: [save_anomalies] rewrites the anomalies file
    as the entries it held followed by the new anomalies, in order; a file
    that is missing, or on which [json.load] raises [JSONDecodeError],
    counts as holding none, so that the first save creates the file with
    exactly the new anomalies, and a second save appends to them.  Any
    other exception of [json.load] goes on to the caller, and the file is
    not written. *)
Theorem save_anomalies_appends new w :
  (anomalies_file w = None ->
   save_anomalies new w =
     (Ok tt, log (Print (MsgSaved (List.length new))) (store (Doc (JArr new)) w))) /\
  (forall c,
     anomalies_file w = Some c -> json_load c = Raise JSONDecodeError ->
     save_anomalies new w =
       (Ok tt, log (Print (MsgSaved (List.length new))) (store (Doc (JArr new)) w))) /\
  (forall old,
     anomalies_file w = Some (Doc (JArr old)) ->
     save_anomalies new w =
       (Ok tt, log (Print (MsgSaved (List.length new)))
                 (store (Doc (JArr (old ++ new))) w))) /\
  (forall more w1,
     anomalies_file w = None ->
     save_anomalies new w = (Ok tt, w1) ->
     exists w2,
       save_anomalies more w1 = (Ok tt, w2) /\
       anomalies_file w2 = Some (Doc (JArr (new ++ more)))) /\
  (forall c e,
     anomalies_file w = Some c -> json_load c = Raise e ->
     e <> JSONDecodeError ->
     save_anomalies new w = (Raise e, w)).
Proof.
  assert (H0 : anomalies_file w = None ->
    save_anomalies new w =
      (Ok tt, log (Print (MsgSaved (List.length new))) (store (Doc (JArr new)) w))).
  { intros H. unfold save_anomalies. exec. rewrite H. reflexivity. }
  split; [exact H0|]. split; [|split; [|split]].
  - intros c H L. unfold save_anomalies. exec. rewrite H, L. reflexivity.
  - intros old H. unfold save_anomalies. exec. rewrite H. reflexivity.
  - intros more w1 H S1. rewrite (H0 H) in S1. injection S1 as <-.
    eexists. split.
    + unfold save_anomalies. exec. reflexivity.
    + reflexivity.
  - intros c e H L Ne. unfold save_anomalies. exec. rewrite H, L.
    destruct e; try reflexivity. elim Ne. reflexivity.
Qed.

(** C1: the counter of misjudged outliers counts the false positives since
    the last retrain modulo 11.  Over any batch that detection processes, a
    counter that starts at [c] and meets [k] false positives ends at
    [(c + k) mod 11] after [(c + k) / 11] retrains; a false positive met
    when fewer than 10 were counted only increments the counter, and the one
    met when 10 were counted (the eleventh) calls [train_model] on the whole
    buffer, the new record included, and resets the counter to 0. *)
Theorem retrain_on_eleventh_false_positive :
  (forall data_points w predictions found w',
     is_trained (self w) = true ->
     labels (self w) data_points = Ok predictions ->
     detect_anomalies data_points w = (Ok found, w') ->
     0 <= incorrect_anomalies (self w) <= 10 ->
     let n := incorrect_anomalies (self w)
              + Z.of_nat (List.length
                            (filter false_positive
                               (combine data_points predictions))) in
     incorrect_anomalies (self w') = n mod 11 /\
     Z.of_nat (retrains (trace w')) = Z.of_nat (retrains (trace w)) + n / 11) /\
  (forall found p w,
     well_formed p = true ->
     truthy (field p "engineFailure") = false ->
     incorrect_anomalies (self w) < 10 ->
     detect_step found (p, -1) w = (Ok found, misjudge p w)) /\
  (forall found p w,
     well_formed p = true ->
     truthy (field p "engineFailure") = false ->
     incorrect_anomalies (self w) = 10 ->
     detect_step found (p, -1) w =
       match train_model (training_data (self w) ++ [p])
               (log (Print MsgRetraining) (misjudge p w)) with
       | (Ok _, w2) => (Ok found, upd_self (set_incorrect_anomalies 0) w2)
       | (Raise e, w2) => (Raise e, w2)
       end).
Proof.
  split; [|split].
  - intros data_points w predictions found w' T L D Hc.
    pose proof (detect_anomalies_loop _ _ T L D) as Hloop.
    destruct (detect_loop_effect _ _ _ Hloop) as (_ & _ & _ & _ & _ & _ & CR).
    exact (CR Hc).
  - intros found p w WF Hef Hc.
    rewrite (detect_step_false_positive found p w WF Hef).
    destruct (Z.gtb_spec (incorrect_anomalies (self w) + 1) 10);
      [lia|reflexivity].
  - intros found p w WF Hef Hc.
    rewrite (detect_step_false_positive found p w WF Hef), Hc. reflexivity.
Qed.

(** C2: a record that the forest labels outlier and whose [engineFailure]
    is falsy is reported by no anomaly of the list detection returns, and
    it is in the training buffer afterwards: exactly once when it is one
    record of the batch and was not in the buffer before. *)
Theorem false_positive_excluded_and_buffered
    data_points w predictions found w' p :
  is_trained (self w) = true ->
  labels (self w) data_points = Ok predictions ->
  detect_anomalies data_points w = (Ok found, w') ->
  In (p, -1) (combine data_points predictions) ->
  false_positive (p, -1) = true ->
  (forall a, In a found -> ~ reports a p) /\
  In p (training_data (self w')) /\
  (occurs_once p data_points ->
   ~ In p (training_data (self w)) ->
   occurs_once p (training_data (self w'))).
Proof.
  intros T L D Hin Hfp.
  pose proof (detect_anomalies_loop _ _ T L D) as Hloop.
  destruct (detect_loop_effect _ _ _ Hloop)
    as (Hbuf & (found1 & Hfound & Hrep) & _).
  cbn [app] in Hfound. subst found1. rewrite Hbuf.
  split; [|split].
  - intros a Ha Hp.
    destruct (@Forall2_In_r _ _ _ _ _ _ Hrep Ha) as ([q pred] & Hq & Hrq).
    apply filter_In in Hq. destruct Hq as [_ Hq].
    pose proof (@reports_flag _ _ _ Hp Hrq) as Hflag. cbn [fst] in Hflag.
    unfold false_positive in Hfp. unfold confirmed in Hq.
    cbn [fst snd] in Hfp, Hq. rewrite Hflag in Hfp.
    apply andb_true_iff in Hfp, Hq.
    destruct Hfp as [_ Hfp], Hq as [_ Hq].
    destruct (getitem q "engineFailure"); [|discriminate].
    rewrite Hq in Hfp. discriminate.
  - apply in_or_app. right. apply in_map_iff. exists (p, -1).
    split; [reflexivity|]. apply filter_In. split; assumption.
  - intros Honce Hnew. apply occurs_once_app_l; [assumption|].
    apply false_positive_once; assumption.
Qed.

(** C10: the labels of a call of [detect_anomalies] are those that the
    scaler and the forest of the detector give as the call starts; the loop
    runs on them, and the records appended to the buffer and the anomalies
    returned are the ones these labels select, whatever a retrain did to the
    forest in between. *)
Theorem labels_fixed_at_call data_points w found w' :
  is_trained (self w) = true ->
  detect_anomalies data_points w = (Ok found, w') ->
  exists predictions,
    labels (self w) data_points = Ok predictions /\
    detect_loop [] (combine data_points predictions) w = (Ok found, w') /\
    training_data (self w') =
      training_data (self w)
      ++ map fst (filter false_positive (combine data_points predictions)) /\
    Forall2 (fun q a => reports a (fst q))
      (filter confirmed (combine data_points predictions)) found.
Proof.
  intros T D. pose proof D as D'.
  rewrite (detect_anomalies_trained _ _ T) in D'.
  destruct (labels (self w) data_points) as [predictions|]; [|discriminate].
  exists predictions. split; [reflexivity|]. split; [exact D'|].
  destruct (detect_loop_effect _ _ _ D')
    as (Hbuf & (found1 & Hfound & Hrep) & _).
  cbn [app] in Hfound. subst found1. split; assumption.
Qed.


Lemma detect_loop_raises pp pps :
  In pp pps ->
  (forall found w found' w', detect_step found pp w <> (Ok found', w')) ->
  forall found w, exists e w', detect_loop found pps w = (Raise e, w').
Proof.
  intros Hin Hstep.
  induction pps as [|q pps IH]; [contradiction|]. intros found w.
  cbn [detect_loop]. unfold bind.
  destruct (detect_step found q w) as [[found1|e] w1] eqn:Estep.
  - destruct Hin as [->|Hin]; [elim (Hstep _ _ _ _ Estep)|].
    exact (IH Hin found1 w1).
  - exists e, w1. reflexivity.
Qed.

(** C4, as the code has it: an outlier whose [engineFailure] is present and
    truthy is reported, by an anomaly that carries the severity of its
    vibration, in the list detection returns; an outlier that has no
    [engineFailure] field makes detection raise instead of returning, and
    the exception that the turn of the loop on such a record raises, its
    other fields being present, is [KeyError] for [engineFailure], the
    world being left as it was. *)
Theorem outlier_with_engine_failure_reported :
  (forall data_points w predictions found w' p ef,
     is_trained (self w) = true ->
     labels (self w) data_points = Ok predictions ->
     detect_anomalies data_points w = (Ok found, w') ->
     In (p, -1) (combine data_points predictions) ->
     getitem p "engineFailure" = Ok ef ->
     truthy ef = true ->
     exists a, In a found /\ reports a p) /\
  (forall data_points w predictions o,
     is_trained (self w) = true ->
     labels (self w) data_points = Ok predictions ->
     In (JObj o, -1) (combine data_points predictions) ->
     assoc "engineFailure" o = None ->
     exists e w', detect_anomalies data_points w = (Raise e, w')) /\
  (forall found o w,
     assoc "engineFailure" o = None ->
     forallb (fun k => succeeds (getitem (JObj o) k))
       ["timestamp"; "altitude"; "airspeed"; "pitch"; "vibration"] = true ->
     detect_step found (JObj o, -1) w = (Raise (KeyError "engineFailure"), w)).
Proof.
  split; [|split].
  - intros data_points w predictions found w' p ef T L D Hin Hef Htrue.
    pose proof (detect_anomalies_loop _ _ T L D) as Hloop.
    destruct (detect_loop_effect _ _ _ Hloop)
      as (_ & (found1 & Hfound & Hrep) & _).
    cbn [app] in Hfound. subst found1.
    assert (Hc : In (p, -1) (filter confirmed (combine data_points predictions))).
    { apply filter_In. split; [assumption|].
      unfold confirmed. cbn [fst snd]. rewrite Hef, Htrue. reflexivity. }
    destruct (@Forall2_In_l _ _ _ _ _ _ Hrep Hc) as (a & Ha & Hr).
    exists a. split; assumption.
  - intros data_points w predictions o T L Hin Habsent.
    rewrite (detect_anomalies_trained _ _ T), L.
    apply (detect_loop_raises _ _ Hin).
    intros found w0 found' w0' Hstep.
    destruct (detect_step_outlier_inv _ _ _ Hstep) as (ef & Hef & _).
    cbn [getitem] in Hef. rewrite Habsent in Hef. discriminate.
  - intros found o w Habsent Hpresent.
    cbn [forallb] in Hpresent. rewrite !andb_true_iff in Hpresent.
    destruct Hpresent as (T & A & S & P & V & _).
    unfold detect_step. rewrite Z.eqb_refl. exec.
    destruct (getitem (JObj o) "timestamp"); [|discriminate].
    destruct (getitem (JObj o) "altitude"); [|discriminate].
    destruct (getitem (JObj o) "airspeed"); [|discriminate].
    destruct (getitem (JObj o) "pitch"); [|discriminate].
    destruct (getitem (JObj o) "vibration"); [|discriminate].
    cbv beta iota. cbn [getitem]. rewrite Habsent. reflexivity.
Qed.

Lemma mapR_raises {A B} (f : A -> result B) l x e :
  In x l -> f x = Raise e -> exists e', mapR f l = Raise e'.
Proof.
  intros Hin Hx. induction l as [|y l IH]; [contradiction|].
  cbn [mapR]. destruct (f y) eqn:Ey; cbn [bindR]; [|eauto].
  destruct Hin as [->|Hin]; [congruence|].
  destruct (IH Hin) as (e' & ->). cbn [bindR]. eauto.
Qed.

Lemma extract_features_missing o k :
  In k required_fields ->
  assoc k o = None ->
  exists k', In k' required_fields /\
             extract_features (JObj o) = Raise (KeyError k').
Proof.
  intros Hk Hnone. unfold extract_features, getitem, required_fields in *.
  destruct (assoc "altitude" o) eqn:Ea; [|exists "altitude"; split; [cbn; auto 10|reflexivity]].
  destruct (assoc "airspeed" o) eqn:Es; [|exists "airspeed"; split; [cbn; auto 10|reflexivity]].
  destruct (assoc "pitch" o) eqn:Ep; [|exists "pitch"; split; [cbn; auto 10|reflexivity]].
  destruct (assoc "vibration" o) eqn:Ev; [|exists "vibration"; split; [cbn; auto 10|reflexivity]].
  cbn [In] in Hk. intuition (subst; congruence).
Qed.

Lemma detect_anomalies_bad_record data_points w p e0 :
  is_trained (self w) = true ->
  In p data_points ->
  extract_features p = Raise e0 ->
  exists e, detect_anomalies data_points w = (Raise e, w).
Proof.
  intros T Hin Hp. rewrite (detect_anomalies_trained _ _ T). unfold labels.
  destruct (mapR_raises _ _ _ Hin Hp) as (e & ->). cbn [bindR]. eauto.
Qed.

Lemma filterR_nil {A} (f : A -> result bool) l x :
  filterR f l = Ok x -> x <> [] -> nonempty l = true.
Proof.
  destruct l; [|reflexivity]. cbn. intros [= <-] H. contradiction.
Qed.

(** C9, as the code has it: a record that lacks one of [altitude],
    [airspeed], [pitch] and [vibration] makes [extract_features] raise
    [KeyError], which reaches the caller; [detect_anomalies] then raises
    before it scores any record of the batch and leaves the world as it
    was, and the loop catches the exception for the whole turn: it prints
    the error and sleeps 5 seconds, the file of anomalies is not written,
    and the position in the telemetry file has moved past the batch. *)
Theorem missing_field_aborts_batch :
  (forall o k,
     In k required_fields -> assoc k o = None ->
     exists k', In k' required_fields /\
                extract_features (JObj o) = Raise (KeyError k')) /\
  (forall data_points w p e0,
     is_trained (self w) = true ->
     In p data_points ->
     extract_features p = Raise e0 ->
     exists e, detect_anomalies data_points w = (Raise e, w)) /\
  (forall w lines new_data training testing p e0,
     telemetry_file w = Some lines ->
     parse_lines (skipn (last_position (self w)) lines) = Ok new_data ->
     filterR is_training new_data = Ok training ->
     filterR is_testing new_data = Ok testing ->
     is_trained (self w) = true ->
     In p testing ->
     extract_features p = Raise e0 ->
     exists e,
       cycle w =
         (Ok tt,
          log (Sleep 5)
            (log (Print (MsgError e))
               (log (Print (MsgDetecting (List.length testing)))
                  (upd_self (set_last_position (List.length lines)) w))))).
Proof.
  split; [exact extract_features_missing|].
  split; [exact detect_anomalies_bad_record|].
  intros w lines new_data training testing p e0 F P Tr Te T Hin Hp.
  assert (Hne : nonempty new_data = true).
  { apply (filterR_nil _ _ Te). intros ->. contradiction. }
  assert (Hte : nonempty testing = true)
    by (destruct testing; [contradiction|reflexivity]).
  set (w1 := log (Print (MsgDetecting (List.length testing)))
               (upd_self (set_last_position (List.length lines)) w)).
  assert (T1 : is_trained (self w1) = true) by exact T.
  destruct (detect_anomalies_bad_record testing w1 p T1 Hin Hp) as (e & D).
  exists e. unfold cycle, cycle_body, load_telemetry_data. exec.
  rewrite F. cbv beta iota. rewrite P. cbv beta iota. rewrite Hne.
  rewrite Tr. cbv beta iota. rewrite Te. cbv beta iota.
  world_simpl. rewrite T, Hte, andb_false_r. cbn [andb]. cbv beta iota.
  world_simpl. rewrite T. cbv beta iota. fold w1. rewrite D. reflexivity.
Qed.

End Proofs.

(** ** The statements at work on the small instance *)

Lemma severity_monotone_witness :
  tier_rank LOW <= tier_rank CRITICAL /\
  (exists t, calculate_severity Toy.alarm = Ok t) /\
  calculate_severity Toy.alarm = Ok CRITICAL /\
  calculate_severity Toy.late_alarm = Ok HIGH.
Proof.
  destruct severity_monotone as (Total & Mono & S9 & S7 & _).
  split; [|split; [|split]].
  - apply (Mono Toy.baseline Toy.alarm
             (JFloat (float_lit 2)) (JFloat (float_lit 9)));
      reflexivity.
  - apply (Total Toy.alarm (JFloat (float_lit 9))); reflexivity.
  - apply S9. reflexivity.
  - apply S7. reflexivity.
Defined.

Lemma train_model_threshold_witness :
  (exists w',
     train_model (repeat Toy.baseline 119) Toy.untrained = (Ok false, w') /\
     self w' = self Toy.untrained /\
     trace w' = trace Toy.untrained ++ [Print MsgNotEnough]) /\
  (exists w',
     train_model (repeat Toy.baseline 120) Toy.untrained = (Ok true, w') /\
     is_trained (self w') = true /\
     scaler (self w') = tt /\
     model (self w') = 4).
Proof.
  destruct (@train_model_threshold Toy.threshold_sklearn) as [Short Enough].
  split.
  - apply Short. vm_compute. reflexivity.
  - apply (Enough (repeat Toy.baseline 120) Toy.untrained
             (repeat [JFloat (float_lit 30000); JFloat (float_lit 450);
                      JFloat (float_lit 2); JFloat (float_lit 2)] 120)
             tt
             (repeat [JFloat (float_lit 30000); JFloat (float_lit 450);
                      JFloat (float_lit 2); JFloat (float_lit 2)] 120));
      vm_compute; reflexivity.
Defined.

(** C3 as stated fails: on the untrained detector a batch with an engine
    failure at 9 g is answered by the empty list, not by an exception. *)
Lemma detect_untrained_no_error :
  is_trained (self Toy.untrained) = false /\
  fst (detect_anomalies (dt := Toy.wall_clock) [Toy.alarm] Toy.untrained)
    = Ok [] /\
  ~ (exists e,
       fst (detect_anomalies (dt := Toy.wall_clock) [Toy.alarm] Toy.untrained)
         = Raise e).
Proof.
  split; [reflexivity|]. split; [reflexivity|].
  intros [e H]. discriminate H.
Qed.

Lemma detect_untrained_returns_empty_witness :
  exists w',
    detect_anomalies (dt := Toy.wall_clock) [Toy.alarm] Toy.untrained
      = (Ok [], w') /\
    self w' = self Toy.untrained /\
    trace w' = trace Toy.untrained ++ [Print MsgNotTrained].
Proof.
  apply (@detect_untrained_returns_empty Toy.threshold_sklearn Toy.wall_clock).
  reflexivity.
Defined.

Lemma retrain_short_buffer_resets_counter_witness :
  exists w',
    detect_step (dt := Toy.wall_clock) [] (Toy.false_alarm, -1)
      (Toy.fresh (Toy.trained [] 10)) = (Ok [], w') /\
    scaler (self w') = tt /\
    model (self w') = 4 /\
    is_trained (self w') = true /\
    training_data (self w') = [] ++ [Toy.false_alarm] /\
    incorrect_anomalies (self w') = 0 /\
    retrains (trace w') = 1%nat.
Proof.
  apply (@retrain_short_buffer_resets_counter Toy.threshold_sklearn
           Toy.wall_clock [] Toy.false_alarm (Toy.fresh (Toy.trained [] 10)));
    vm_compute; reflexivity.
Defined.

Lemma save_anomalies_appends_witness :
  anomalies_file (snd (save_anomalies [Toy.reported_alarm] Toy.watching))
    = Some (Doc (JArr [Toy.reported_alarm])) /\
  anomalies_file
    (snd (save_anomalies [Toy.reported_alarm] (store Corrupt Toy.watching)))
    = Some (Doc (JArr [Toy.reported_alarm])) /\
  anomalies_file
    (snd (save_anomalies [Toy.reported_late_alarm]
            (store (Doc (JArr [Toy.reported_alarm])) Toy.watching)))
    = Some (Doc (JArr ([Toy.reported_alarm] ++ [Toy.reported_late_alarm]))) /\
  (exists w2,
     save_anomalies [Toy.reported_late_alarm]
       (snd (save_anomalies [Toy.reported_alarm] Toy.watching)) = (Ok tt, w2) /\
     anomalies_file w2
       = Some (Doc (JArr ([Toy.reported_alarm] ++ [Toy.reported_late_alarm])))) /\
  save_anomalies [Toy.reported_alarm] Toy.mangled_store
    = (Raise UnicodeDecodeError, Toy.mangled_store).
Proof.
  split; [|split; [|split; [|split]]].
  - rewrite (proj1 (save_anomalies_appends [Toy.reported_alarm] Toy.watching));
      reflexivity.
  - rewrite (proj1 (proj2 (save_anomalies_appends [Toy.reported_alarm]
                             (store Corrupt Toy.watching)))
               Corrupt); reflexivity.
  - rewrite (proj1 (proj2 (proj2 (save_anomalies_appends
                                    [Toy.reported_late_alarm]
                                    (store (Doc (JArr [Toy.reported_alarm]))
                                       Toy.watching))))
               [Toy.reported_alarm]);
      reflexivity.
  - apply (proj1 (proj2 (proj2 (proj2 (save_anomalies_appends
                                         [Toy.reported_alarm] Toy.watching))))
             [Toy.reported_late_alarm]);
      reflexivity.
  - apply (proj2 (proj2 (proj2 (proj2 (save_anomalies_appends
                                         [Toy.reported_alarm]
                                         Toy.mangled_store))))
             (Unreadable UnicodeDecodeError));
      [reflexivity|reflexivity|discriminate].
Defined.

(** C8 as stated fails: an anomalies file that is not UTF-8 does not
    parse, and it is not taken for empty: the save raises the exception of
    [json.load] and the file is left as it was, without the new anomaly. *)
Lemma unreadable_store_not_taken_for_empty :
  json_load (Unreadable UnicodeDecodeError) = Raise UnicodeDecodeError /\
  save_anomalies [Toy.reported_alarm] Toy.mangled_store
    = (Raise UnicodeDecodeError, Toy.mangled_store) /\
  anomalies_file
    (snd (save_anomalies [Toy.reported_alarm] Toy.mangled_store))
    <> Some (Doc (JArr [Toy.reported_alarm])).
Proof.
  split; [reflexivity|]. split; [reflexivity|]. discriminate.
Qed.

Lemma retrain_on_eleventh_false_positive_witness :
  (incorrect_anomalies
     (self (snd (detect_anomalies (dt := Toy.wall_clock)
                   (repeat Toy.false_alarm 11) Toy.watching)))
   = (0 + 11) mod 11 /\
   Z.of_nat
     (retrains
        (trace (snd (detect_anomalies (dt := Toy.wall_clock)
                       (repeat Toy.false_alarm 11) Toy.watching))))
   = 0 + (0 + 11) / 11) /\
  detect_step (dt := Toy.wall_clock) [] (Toy.false_alarm, -1)
    (Toy.fresh (Toy.trained [] 9))
  = (Ok [], misjudge Toy.false_alarm (Toy.fresh (Toy.trained [] 9))) /\
  detect_step (dt := Toy.wall_clock) [] (Toy.false_alarm, -1)
    Toy.about_to_retrain
  = match train_model (repeat Toy.baseline 119 ++ [Toy.false_alarm])
            (log (Print MsgRetraining)
               (misjudge Toy.false_alarm Toy.about_to_retrain)) with
    | (Ok _, w2) => (Ok [], upd_self (set_incorrect_anomalies 0) w2)
    | (Raise e, w2) => (Raise e, w2)
    end.
Proof.
  destruct (@retrain_on_eleventh_false_positive Toy.threshold_sklearn
              Toy.wall_clock) as (Batch & Tenth & Eleventh).
  split; [|split].
  - apply (Batch (repeat Toy.false_alarm 11) Toy.watching (repeat (-1) 11) []);
      vm_compute; try reflexivity. split; discriminate.
  - apply Tenth; vm_compute; reflexivity.
  - apply (Eleventh [] Toy.false_alarm Toy.about_to_retrain);
      vm_compute; reflexivity.
Defined.

Lemma false_positive_excluded_and_buffered_witness :
  (forall a, In a [Toy.reported_alarm] -> ~ reports (dt := Toy.wall_clock) a Toy.false_alarm) /\
  In Toy.false_alarm
    (training_data
       (self (snd (detect_anomalies (dt := Toy.wall_clock)
                     [Toy.alarm; Toy.false_alarm] Toy.watching)))) /\
  occurs_once Toy.false_alarm
    (training_data
       (self (snd (detect_anomalies (dt := Toy.wall_clock)
                     [Toy.alarm; Toy.false_alarm] Toy.watching)))).
Proof.
  destruct (@false_positive_excluded_and_buffered Toy.threshold_sklearn
              Toy.wall_clock [Toy.alarm; Toy.false_alarm] Toy.watching
              [-1; -1] [Toy.reported_alarm]
              (snd (detect_anomalies (dt := Toy.wall_clock)
                      [Toy.alarm; Toy.false_alarm] Toy.watching))
              Toy.false_alarm)
    as (Excluded & Buffered & Once).
  - reflexivity.
  - vm_compute. reflexivity.
  - vm_compute. reflexivity.
  - right. left. reflexivity.
  - vm_compute. reflexivity.
  - split; [exact Excluded|]. split; [exact Buffered|].
    apply Once.
    + exists [Toy.alarm], []. split; [reflexivity|].
      split; [|intros []]. intros [H|[]]. discriminate H.
    + intros [].
Defined.

(** The retrain that [false_alarm] triggers raises the threshold of the
    forest from 4 to 10, under which [late_alarm] would be an inlier; it is
    reported all the same, by the label it had when the call started. *)
Lemma labels_fixed_at_call_witness :
  (exists predictions,
     labels (self Toy.about_to_retrain) [Toy.false_alarm; Toy.late_alarm]
       = Ok predictions /\
     detect_loop (dt := Toy.wall_clock) []
       (combine [Toy.false_alarm; Toy.late_alarm] predictions)
       Toy.about_to_retrain
       = (Ok [Toy.reported_late_alarm],
          snd (detect_anomalies (dt := Toy.wall_clock)
                 [Toy.false_alarm; Toy.late_alarm] Toy.about_to_retrain)) /\
     training_data
       (self (snd (detect_anomalies (dt := Toy.wall_clock)
                     [Toy.false_alarm; Toy.late_alarm] Toy.about_to_retrain)))
       = training_data (self Toy.about_to_retrain)
         ++ map fst (filter false_positive
                       (combine [Toy.false_alarm; Toy.late_alarm] predictions)) /\
     Forall2 (fun q a => reports (dt := Toy.wall_clock) a (fst q))
       (filter confirmed (combine [Toy.false_alarm; Toy.late_alarm] predictions))
       [Toy.reported_late_alarm]) /\
  labels (self Toy.about_to_retrain) [Toy.false_alarm; Toy.late_alarm]
    = Ok [-1; -1] /\
  model (self (snd (detect_anomalies (dt := Toy.wall_clock)
                      [Toy.false_alarm; Toy.late_alarm] Toy.about_to_retrain)))
    = 10 /\
  labels (self (snd (detect_anomalies (dt := Toy.wall_clock)
                       [Toy.false_alarm; Toy.late_alarm] Toy.about_to_retrain)))
    [Toy.false_alarm; Toy.late_alarm]
    = Ok [1; 1].
Proof.
  split; [|split; [|split]].
  - apply (@labels_fixed_at_call Toy.threshold_sklearn Toy.wall_clock);
      vm_compute; reflexivity.
  - vm_compute. reflexivity.
  - vm_compute. reflexivity.
  - vm_compute. reflexivity.
Defined.

(** C4 as stated fails: an outlier without [engineFailure] is not reported;
    detection raises [KeyError]. *)
Lemma absent_engine_failure_raises :
  labels (self Toy.watching) [Toy.unlabelled 1 9] = Ok [-1] /\
  fst (detect_anomalies (dt := Toy.wall_clock) [Toy.unlabelled 1 9] Toy.watching)
    = Raise (KeyError "engineFailure").
Proof. split; vm_compute; reflexivity. Qed.

Lemma outlier_with_engine_failure_reported_witness :
  (exists a, In a [Toy.reported_alarm] /\
             reports (dt := Toy.wall_clock) a Toy.alarm) /\
  (exists e w',
     detect_anomalies (dt := Toy.wall_clock) [Toy.unlabelled 1 9] Toy.watching
       = (Raise e, w')) /\
  detect_step (dt := Toy.wall_clock) [] (Toy.unlabelled 1 9, -1) Toy.watching
    = (Raise (KeyError "engineFailure"), Toy.watching).
Proof.
  destruct (@outlier_with_engine_failure_reported Toy.threshold_sklearn
              Toy.wall_clock) as (Present & Absent & Step).
  split; [|split; [|apply Step; reflexivity]].
  - apply (Present [Toy.alarm] Toy.watching [-1] [Toy.reported_alarm]
              (snd (detect_anomalies (dt := Toy.wall_clock) [Toy.alarm]
                      Toy.watching))
              Toy.alarm (JBool true));
      try (vm_compute; reflexivity).
    left. reflexivity.
  - apply (Absent [Toy.unlabelled 1 9] Toy.watching [-1]
             [("timestamp", JInt 1);
              ("altitude", JFloat (float_lit 30000));
              ("airspeed", JFloat (float_lit 450));
              ("pitch", JFloat (float_lit 2));
              ("vibration", JFloat (float_lit 9));
              ("trainingPhase", JBool false)]);
      try (vm_compute; reflexivity).
    left. reflexivity.
Defined.

(** C9 as stated fails: the malformed record takes the engine failure that
    follows it in the batch down with it.  Nothing is saved in that turn of
    the loop nor in the next ones, the position being past both records;
    the same engine failure alone in the file is saved. *)
Lemma missing_field_loses_batch :
  extract_features (Toy.malformed 0) = Raise (KeyError "altitude") /\
  anomalies_file (snd (cycle (dt := Toy.wall_clock) Toy.spoiled_feed)) = None /\
  last_position (self (snd (cycle (dt := Toy.wall_clock) Toy.spoiled_feed)))
    = 2%nat /\
  anomalies_file (snd (cycles (dt := Toy.wall_clock) 3 Toy.spoiled_feed))
    = None /\
  anomalies_file (snd (cycle (dt := Toy.wall_clock) Toy.clean_feed))
    = Some (Doc (JArr [Toy.reported_alarm])).
Proof. repeat split; vm_compute; reflexivity. Qed.

Lemma missing_field_aborts_batch_witness :
  (exists k', In k' required_fields /\
              extract_features (Toy.malformed 0) = Raise (KeyError k')) /\
  (exists e,
     detect_anomalies (dt := Toy.wall_clock) [Toy.malformed 0; Toy.alarm]
       Toy.watching = (Raise e, Toy.watching)) /\
  (exists e,
     cycle (dt := Toy.wall_clock) Toy.spoiled_feed =
       (Ok tt,
        log (Sleep 5)
          (log (Print (MsgError e))
             (log (Print (MsgDetecting 2))
                (upd_self (set_last_position 2) Toy.spoiled_feed))))).
Proof.
  destruct (@missing_field_aborts_batch Toy.threshold_sklearn Toy.wall_clock)
    as (Extract & Detect & Cycle).
  split; [|split].
  - apply (Extract _ "altitude"); [left; reflexivity|reflexivity].
  - apply (Detect [Toy.malformed 0; Toy.alarm] Toy.watching (Toy.malformed 0)
             (KeyError "altitude"));
      [reflexivity|left; reflexivity|reflexivity].
  - apply (Cycle Toy.spoiled_feed [LJson (Toy.malformed 0); LJson Toy.alarm]
             [Toy.malformed 0; Toy.alarm] [] [Toy.malformed 0; Toy.alarm]
             (Toy.malformed 0) (KeyError "altitude"));
      try reflexivity.
    left. reflexivity.
Defined.

(** * Further properties of the methods *)

Section Coverage.

Context {sk : Sklearn} {dt : Datetime}.

(** ** What the operations keep *)

Lemma prefix_of_refl {A} (l : list A) : prefix_of l l.
Proof. exists []. symmetry. apply app_nil_r. Qed.

Lemma prefix_of_trans {A} (l1 l2 l3 : list A) :
  prefix_of l1 l2 -> prefix_of l2 l3 -> prefix_of l1 l3.
Proof.
  intros [x ->] [y ->]. exists (x ++ y). symmetry. apply app_assoc.
Qed.

Lemma prefix_of_app {A} (l x : list A) : prefix_of l (l ++ x).
Proof. exists x. reflexivity. Qed.

Lemma sleeps_app tr tr' : sleeps (tr ++ tr') = (sleeps tr + sleeps tr')%nat.
Proof. unfold sleeps. rewrite filter_app, length_app. reflexivity. Qed.

Lemma evolves_refl w : evolves 0 w w.
Proof.
  constructor; auto using prefix_of_refl.
Qed.

Lemma evolves_trans n m w1 w2 w3 :
  evolves n w1 w2 -> evolves m w2 w3 -> evolves (n + m) w1 w3.
Proof.
  intros [] []. constructor; eauto using prefix_of_trans; try congruence; lia.
Qed.

Lemma scores_refl w : scores w w.
Proof. constructor; auto using evolves_refl. Qed.

Lemma scores_trans w1 w2 w3 : scores w1 w2 -> scores w2 w3 -> scores w1 w3.
Proof.
  intros [E1 S1 P1] [E2 S2 P2]. constructor; try congruence.
  exact (evolves_trans E1 E2).
Qed.

Lemma evolves_log_print n m w w' :
  evolves n w w' -> evolves n w (log (Print m) w').
Proof.
  intros []. constructor; auto.
  - cbn [trace log]. eapply prefix_of_trans; [eassumption|apply prefix_of_app].
  - cbn [trace log]. rewrite sleeps_app.
    change (sleeps [Print m]) with 0%nat. lia.
Qed.

Lemma evolves_log_sleep n s w w' :
  evolves n w w' -> evolves (S n) w (log (Sleep s) w').
Proof.
  intros []. constructor; auto.
  - cbn [trace log]. eapply prefix_of_trans; [eassumption|apply prefix_of_app].
  - cbn [trace log]. rewrite sleeps_app.
    change (sleeps [Sleep s]) with 1%nat. lia.
Qed.

Lemma evolves_tick n w w' : evolves n w w' -> evolves n w (tick w').
Proof. intros []. constructor; auto. cbn [clock tick]. lia. Qed.

Lemma scores_log_print m w : scores w (log (Print m) w).
Proof.
  constructor; auto. apply evolves_log_print, evolves_refl.
Qed.

Lemma scores_tick w : scores w (tick w).
Proof. constructor; auto. apply evolves_tick, evolves_refl. Qed.

(** Assignments to [self] that neither shorten the buffer, nor clear the
    trained flag, nor move the position. *)
Lemma scores_upd_self f w :
  prefix_of (training_data (self w)) (training_data (f (self w))) ->
  (is_trained (self w) = true -> is_trained (f (self w)) = true) ->
  last_position (f (self w)) = last_position (self w) ->
  scores w (upd_self f w).
Proof.
  intros B T P. constructor; auto.
  constructor; auto using prefix_of_refl.
Qed.

Lemma preserves_ret {A} (R : world -> world -> Prop) (a : A) :
  (forall w, R w w) -> preserves R (ret a).
Proof. intros Rr w r w' [= <- <-]. apply Rr. Qed.

Lemma preserves_lift {A} (R : world -> world -> Prop) (x : result A) :
  (forall w, R w w) -> preserves R (lift x).
Proof. intros Rr w r w' [= <- <-]. apply Rr. Qed.

Lemma preserves_bind {A B} (R : world -> world -> Prop)
    (m : M A) (k : A -> M B) :
  (forall w1 w2 w3, R w1 w2 -> R w2 w3 -> R w1 w3) ->
  preserves R m -> (forall a, preserves R (k a)) -> preserves R (bind m k).
Proof.
  intros Rt Hm Hk w r w'. unfold bind.
  destruct (m w) as [[a|e] w1] eqn:E.
  - intros H. exact (Rt _ _ _ (Hm _ _ _ E) (Hk a _ _ _ H)).
  - intros [= <- <-]. exact (Hm _ _ _ E).
Qed.

Lemma preserves_get_self (R : world -> world -> Prop) :
  (forall w, R w w) -> preserves R get_self.
Proof. intros Rr w r w' [= <- <-]. apply Rr. Qed.

Lemma preserves_print m : preserves scores (print m).
Proof. intros w r w' [= <- <-]. apply scores_log_print. Qed.

Lemma preserves_now : preserves scores datetime_now_isoformat.
Proof. intros w r w' [= <- <-]. apply scores_tick. Qed.

Lemma preserves_modify_self f :
  (forall w, scores w (upd_self f w)) -> preserves scores (modify_self f).
Proof. intros H w r w' [= <- <-]. apply H. Qed.

Ltac scores_setter :=
  intros; apply scores_upd_self; cbn;
  auto using prefix_of_refl, prefix_of_app.

Ltac keeps :=
  repeat first
    [ apply preserves_bind; [exact scores_trans | | intros ?]
    | apply preserves_ret; exact scores_refl
    | apply preserves_lift; exact scores_refl
    | apply preserves_get_self; exact scores_refl
    | apply preserves_print
    | apply preserves_now
    | apply preserves_modify_self; scores_setter
    | match goal with
      | |- preserves _ (if ?b then _ else _) => destruct b
      end ].

Lemma scaler_fit_transform_scores features :
  preserves scores (scaler_fit_transform features).
Proof.
  unfold scaler_fit_transform.
  apply preserves_bind; [exact scores_trans| |intros d].
  - apply preserves_get_self. exact scores_refl.
  - destruct (fit_transform (scaler d) features); keeps.
Qed.

Lemma model_fit_scores features_scaled :
  preserves scores (model_fit features_scaled).
Proof.
  unfold model_fit.
  apply preserves_bind; [exact scores_trans| |intros d].
  - apply preserves_get_self. exact scores_refl.
  - destruct (fit (model d) features_scaled); keeps.
Qed.

Lemma train_model_scores training : preserves scores (train_model training).
Proof.
  unfold train_model.
  destruct (Z.of_nat (List.length training) <? 120); [keeps|].
  apply preserves_bind; [exact scores_trans| |intros features].
  { apply preserves_lift. exact scores_refl. }
  apply preserves_bind; [exact scores_trans| |intros features_scaled].
  { apply scaler_fit_transform_scores. }
  apply preserves_bind; [exact scores_trans| |intros _].
  { apply model_fit_scores. }
  keeps.
Qed.

Lemma detect_step_scores found pp : preserves scores (detect_step found pp).
Proof.
  destruct pp as [p pred]. unfold detect_step. keeps.
  apply train_model_scores.
Qed.

Lemma detect_loop_scores pps : forall found,
  preserves scores (detect_loop found pps).
Proof.
  induction pps as [|pp pps IH]; intros found; cbn [detect_loop].
  - apply preserves_ret. exact scores_refl.
  - apply preserves_bind; [exact scores_trans| |exact IH].
    apply detect_step_scores.
Qed.

Lemma detect_anomalies_scores data_points :
  preserves scores (detect_anomalies data_points).
Proof.
  unfold detect_anomalies. keeps. apply detect_loop_scores.
Qed.


Lemma scores_is_evolves w w' : scores w w' -> evolves 0 w w'.
Proof. intros []. assumption. Qed.

Lemma evolves_trans_0 w1 w2 w3 :
  evolves 0 w1 w2 -> evolves 0 w2 w3 -> evolves 0 w1 w3.
Proof. intros E1 E2. exact (evolves_trans E1 E2). Qed.

Lemma evolves_upd_self f w :
  prefix_of (training_data (self w)) (training_data (f (self w))) ->
  (is_trained (self w) = true -> is_trained (f (self w)) = true) ->
  evolves 0 w (upd_self f w).
Proof. intros B T. constructor; auto using prefix_of_refl. Qed.

Lemma evolves_store c w : evolves 0 w (store c w).
Proof.
  constructor; auto using prefix_of_refl. intros _. discriminate.
Qed.

Lemma preserves_weaken {A} (m : M A) :
  preserves scores m -> preserves (evolves 0) m.
Proof. intros H w r w' E. exact (scores_is_evolves (H _ _ _ E)). Qed.

Lemma preserves_read_telemetry : preserves (evolves 0) read_telemetry_file.
Proof. intros w r w' [= <- <-]. apply evolves_refl. Qed.

Lemma preserves_read_anomalies : preserves (evolves 0) read_anomalies_file.
Proof. intros w r w' [= <- <-]. apply evolves_refl. Qed.

Lemma preserves_write_anomalies c :
  preserves (evolves 0) (write_anomalies_file c).
Proof. intros w r w' [= <- <-]. apply evolves_store. Qed.

Lemma preserves_print_ev m : preserves (evolves 0) (print m).
Proof. apply preserves_weaken, preserves_print. Qed.

Lemma preserves_modify_self_ev f :
  (forall w, evolves 0 w (upd_self f w)) ->
  preserves (evolves 0) (modify_self f).
Proof. intros H w r w' [= <- <-]. apply H. Qed.

Ltac evolves_setter :=
  intros; apply evolves_upd_self; cbn;
  auto using prefix_of_refl, prefix_of_app.

Ltac keeps_ev_step :=
  lazymatch goal with
  | |- preserves _ (bind _ _) =>
      apply preserves_bind; [exact evolves_trans_0 | | intros ?]
  | |- preserves _ (ret _) => apply preserves_ret; exact evolves_refl
  | |- preserves _ (lift _) => apply preserves_lift; exact evolves_refl
  | |- preserves _ get_self => apply preserves_get_self; exact evolves_refl
  | |- preserves _ (print _) => apply preserves_print_ev
  | |- preserves _ read_telemetry_file => apply preserves_read_telemetry
  | |- preserves _ read_anomalies_file => apply preserves_read_anomalies
  | |- preserves _ (write_anomalies_file _) => apply preserves_write_anomalies
  | |- preserves _ (train_model _) =>
      apply preserves_weaken, train_model_scores
  | |- preserves _ (detect_anomalies _) =>
      apply preserves_weaken, detect_anomalies_scores
  | |- preserves _ (modify_self _) =>
      apply preserves_modify_self_ev; evolves_setter
  | |- preserves _ (if ?b then _ else _) => destruct b
  | |- preserves _ (match ?x with Some _ => _ | None => _ end) => destruct x
  end.

Lemma load_telemetry_data_evolves : preserves (evolves 0) load_telemetry_data.
Proof. unfold load_telemetry_data. repeat keeps_ev_step. Qed.

Lemma load_existing_anomalies_evolves :
  preserves (evolves 0) load_existing_anomalies.
Proof.
  unfold load_existing_anomalies.
  apply preserves_bind; [exact evolves_trans_0| |intros f].
  - apply preserves_read_anomalies.
  - destruct f as [c|]; [|repeat keeps_ev_step].
    destruct (json_load c) as [v|e]; [repeat keeps_ev_step|].
    destruct e; repeat keeps_ev_step.
Qed.

Lemma save_anomalies_evolves new : preserves (evolves 0) (save_anomalies new).
Proof.
  unfold save_anomalies.
  apply preserves_bind; [exact evolves_trans_0| |intros existing].
  - apply load_existing_anomalies_evolves.
  - repeat keeps_ev_step.
Qed.

(** A computation followed by a sleep: it sleeps once if it returns. *)
Lemma then_sleep_outcome {A} (m : M A) s w r w' :
  preserves (evolves 0) m ->
  bind m (fun _ => sleep s) w = (r, w') ->
  (exists w2, r = Ok tt /\ w' = log (Sleep s) w2 /\ evolves 0 w w2) \/
  (exists e, r = Raise e /\ evolves 0 w w').
Proof.
  intros Hm. unfold bind. destruct (m w) as [[a|e] w1] eqn:E.
  - intros [= <- <-]. left. exists w1. eauto.
  - intros [= <- <-]. right. exists e. eauto.
Qed.

Lemma cycle_body_outcome w r w' :
  cycle_body w = (r, w') ->
  (exists w2, r = Ok tt /\ w' = log (Sleep 2) w2 /\ evolves 0 w w2) \/
  (exists e, r = Raise e /\ evolves 0 w w').
Proof.
  unfold cycle_body.
  unfold bind at 1. destruct (load_telemetry_data w) as [[new|e] w1] eqn:L.
  - intros H. pose proof (load_telemetry_data_evolves _ L) as E1.
    apply then_sleep_outcome in H.
    + destruct H as [(w2 & -> & -> & E2)|(e & -> & E2)]; [left|right].
      * exists w2. eauto using evolves_trans_0.
      * exists e. eauto using evolves_trans_0.
    + repeat first [apply save_anomalies_evolves | keeps_ev_step].
  - intros [= <- <-]. right. exists e. split; [reflexivity|].
    exact (load_telemetry_data_evolves _ L).
Qed.


(** ** The loop *)

Lemma cycle_outcome w :
  exists w',
    cycle w = (Ok tt, w') /\
    evolves 1 w w' /\
    ((exists w2, w' = log (Sleep 2) w2) \/
     (exists e w2, w' = log (Sleep 5) (log (Print (MsgError e)) w2))).
Proof.
  unfold cycle, try_except.
  destruct (cycle_body w) as [r w1] eqn:B.
  destruct (cycle_body_outcome w B) as [(w2 & -> & -> & E)|(e & -> & E)].
  - eexists. split; [reflexivity|]. split; [|left; eauto].
    apply evolves_log_sleep. exact E.
  - eexists. split; [reflexivity|]. split; [|right; eauto].
    cbv beta iota delta [bind print sleep emit].
    apply evolves_log_sleep, evolves_log_print. exact E.
Qed.

(** X1: a turn of the loop never raises.  It ends by sleeping, 2 seconds
    after a normal turn and 5 seconds after printing the exception of a
    failed one; it sleeps once, and it neither shortens the training
    buffer, nor clears the trained flag, nor touches the telemetry file,
    nor removes the anomalies file. *)
Theorem cycle_always_sleeps w :
  exists w',
    cycle w = (Ok tt, w') /\
    evolves 1 w w' /\
    ((exists w2, w' = log (Sleep 2) w2) \/
     (exists e w2, w' = log (Sleep 5) (log (Print (MsgError e)) w2))).
Proof. exact (cycle_outcome w). Qed.

Lemma cycles_evolve n : forall w,
  exists w', cycles n w = (Ok tt, w') /\ evolves n w w'.
Proof.
  induction n as [|n IH]; intros w.
  - exists w. split; [reflexivity|apply evolves_refl].
  - destruct (cycle_outcome w) as (w1 & C & E1 & _).
    destruct (IH w1) as (w2 & Cs & E2).
    exists w2. cbn [cycles]. unfold bind. rewrite C. split; [exact Cs|].
    exact (evolves_trans E1 E2).
Qed.

(** X2: [run_detection_loop] stopped after [n] turns has not raised and has
    slept [n] times; the anomalies file exists from then on, the telemetry
    file is as it was, and the detector has kept its training buffer as a
    prefix of the new one and its trained flag if it was set. *)
Theorem run_detection_loop_keeps_going n w :
  exists w',
    run_detection_loop n w = (Ok tt, w') /\
    anomalies_file w' <> None /\
    sleeps (trace w') = (sleeps (trace w) + n)%nat /\
    telemetry_file w' = telemetry_file w /\
    prefix_of (training_data (self w)) (training_data (self w')) /\
    (is_trained (self w) = true -> is_trained (self w') = true).
Proof.
  unfold run_detection_loop, clean_anomalies.
  cbv beta iota delta [bind print emit write_anomalies_file].
  destruct (cycles_evolve n (log (Print MsgStarting) (store Empty w)))
    as (w' & C & [B T Tel St Tr Sl Cl]).
  exists w'. split; [exact C|].
  cbn [self trace log store telemetry_file anomalies_file] in *.
  repeat split; auto.
  - apply St. discriminate.
  - rewrite Sl, sleeps_app.
    change (sleeps [Print MsgStarting]) with 0%nat. lia.
Qed.


(** ** Reading the telemetry file *)

Ltac run :=
  cbv beta iota delta [bind lift ret print sleep emit modify_self get_self
                       datetime_now_isoformat read_anomalies_file
                       write_anomalies_file read_telemetry_file try_except
                       scaler_fit_transform model_fit
                       load_existing_anomalies].

Lemma parse_lines_good ls :
  existsb is_bad ls = false -> parse_lines ls = Ok (json_lines ls).
Proof.
  induction ls as [|[|v|] ls IH]; cbn; intros H; try discriminate; auto.
  rewrite (IH H). reflexivity.
Qed.

Lemma parse_lines_bad ls :
  existsb is_bad ls = true -> parse_lines ls = Raise JSONDecodeError.
Proof.
  induction ls as [|[|v|] ls IH]; cbn; intros H; try discriminate; auto.
  rewrite (IH H). reflexivity.
Qed.

Lemma load_telemetry_data_good w lines :
  telemetry_file w = Some lines ->
  existsb is_bad (skipn (last_position (self w)) lines) = false ->
  load_telemetry_data w =
    (Ok (json_lines (skipn (last_position (self w)) lines)),
     upd_self (set_last_position (List.length lines)) w).
Proof.
  intros F G. unfold load_telemetry_data. run. rewrite F. cbv beta iota.
  rewrite (parse_lines_good _ G). reflexivity.
Qed.

(** X3: when the file holds the lines already consumed followed by new
    ones that parse, [load_telemetry_data] returns the documents of the new
    lines in order, blank lines left out, and moves the position to the end
    of the file; the consumed lines are not read again, whatever they hold,
    and a second call finds nothing. *)
Theorem load_reads_only_new_lines w old more :
  telemetry_file w = Some (old ++ more) ->
  last_position (self w) = List.length old ->
  existsb is_bad more = false ->
  exists w',
    load_telemetry_data w = (Ok (json_lines more), w') /\
    w' = upd_self (set_last_position (List.length old + List.length more)) w /\
    load_telemetry_data w' = (Ok [], w').
Proof.
  intros F P G.
  assert (S1 : skipn (last_position (self w)) (old ++ more) = more).
  { rewrite P, skipn_app, skipn_all, Nat.sub_diag. reflexivity. }
  eexists. split; [|split; [reflexivity|]].
  - rewrite (load_telemetry_data_good w F); rewrite S1; [|exact G].
    rewrite length_app. reflexivity.
  - erewrite load_telemetry_data_good; [|exact F|];
      cbn [self upd_self last_position set_last_position];
      rewrite <- length_app, skipn_all; reflexivity.
Qed.

(** X4: when the file has become shorter than the position, nothing is
    read and the position moves back to the end of the file. *)
Theorem load_truncated_file w lines :
  telemetry_file w = Some lines ->
  (List.length lines <= last_position (self w))%nat ->
  load_telemetry_data w =
    (Ok [], upd_self (set_last_position (List.length lines)) w).
Proof.
  intros F L.
  rewrite (load_telemetry_data_good w F); rewrite (skipn_all2 lines L);
    reflexivity.
Qed.

Lemma load_telemetry_data_bad w lines :
  telemetry_file w = Some lines ->
  existsb is_bad (skipn (last_position (self w)) lines) = true ->
  load_telemetry_data w = (Raise JSONDecodeError, w).
Proof.
  intros F G. unfold load_telemetry_data. run. rewrite F. cbv beta iota.
  rewrite (parse_lines_bad _ G). reflexivity.
Qed.

(** The trace of [n] failed turns. *)
Lemma stuck_cycles e n : forall w,
  (forall w', self w' = self w -> telemetry_file w' = telemetry_file w ->
              load_telemetry_data w' = (Raise e, w')) ->
  exists w',
    cycles n w = (Ok tt, w') /\
    self w' = self w /\
    telemetry_file w' = telemetry_file w /\
    anomalies_file w' = anomalies_file w /\
    trace w' = trace w ++ List.concat (repeat [Print (MsgError e); Sleep 5] n).
Proof.
  induction n as [|n IH]; intros w L.
  - exists w. rewrite app_nil_r. auto.
  - set (w1 := log (Sleep 5) (log (Print (MsgError e)) w)).
    assert (C : cycle w = (Ok tt, w1)).
    { unfold cycle, cycle_body, try_except. unfold bind at 1.
      rewrite (L w eq_refl eq_refl). reflexivity. }
    destruct (IH w1) as (w' & Cs & S & T & A & Tr).
    { intros w2 S2 T2. apply L; assumption. }
    exists w'. cbn [cycles]. unfold bind. rewrite C.
    split; [exact Cs|]. repeat split; try assumption.
    rewrite Tr. subst w1. cbn [trace log repeat List.concat app].
    rewrite <- !app_assoc. reflexivity.
Qed.

(** X5: a line after the position that does not parse stops the
    ingestion.  [load_telemetry_data] raises [JSONDecodeError] without
    moving the position, so that every later turn fails on the same line:
    after any number of turns the detector and the anomalies file are as
    they were, and the console shows the error and a sleep of 5 seconds
    for each turn. *)
Theorem bad_line_blocks_ingestion w lines n :
  telemetry_file w = Some lines ->
  existsb is_bad (skipn (last_position (self w)) lines) = true ->
  load_telemetry_data w = (Raise JSONDecodeError, w) /\
  exists w',
    cycles n w = (Ok tt, w') /\
    self w' = self w /\
    anomalies_file w' = anomalies_file w /\
    trace w' =
      trace w ++ List.concat (repeat [Print (MsgError JSONDecodeError); Sleep 5] n).
Proof.
  intros F G. split; [exact (load_telemetry_data_bad w F G)|].
  destruct (@stuck_cycles JSONDecodeError n w) as (w' & C & S & _ & A & T).
  - intros w' S T. eapply load_telemetry_data_bad.
    + rewrite T. exact F.
    + rewrite S. exact G.
  - exists w'. auto.
Qed.

(** X6: a turn without data.  When the telemetry file is missing, the turn
    says so, changes nothing else and sleeps 2 seconds; when the file has
    no document after the position (no line, or blank lines only), the
    turn moves the position to the end of the file and sleeps 2 seconds.
    Neither trains nor scores. *)
Theorem idle_turn w :
  (telemetry_file w = None ->
   cycle w =
     (Ok tt,
      log (Sleep 2)
        (log (Print MsgNoNewData) (log (Print MsgTelemetryNotFound) w)))) /\
  (forall lines,
     telemetry_file w = Some lines ->
     existsb is_bad (skipn (last_position (self w)) lines) = false ->
     json_lines (skipn (last_position (self w)) lines) = [] ->
     cycle w =
       (Ok tt,
        log (Sleep 2)
          (log (Print MsgNoNewData)
             (upd_self (set_last_position (List.length lines)) w)))).
Proof.
  split.
  - intros F. unfold cycle, cycle_body, load_telemetry_data. run.
    rewrite F. reflexivity.
  - intros lines F G E. unfold cycle, cycle_body, try_except.
    unfold bind at 1. rewrite (load_telemetry_data_good w F G), E.
    reflexivity.
Qed.


(** ** Features and severity *)

(** X7: on a dict [extract_features] raises [KeyError] for the first of
    [altitude], [airspeed], [pitch], [vibration] that is missing, and
    otherwise returns the four values in that order, as they are, whatever
    their types; on a value that is not a dict it raises [TypeError]. *)
Theorem extract_features_outcome p :
  (forall o, p = JObj o ->
     extract_features p =
       match first_missing p with
       | Some k => Raise (KeyError k)
       | None => Ok (map (field p) required_fields)
       end) /\
  ((forall o, p <> JObj o) -> extract_features p = Raise TypeError).
Proof.
  split.
  - intros o ->. unfold extract_features, first_missing, required_fields, field.
    cbn [find map getitem].
    destruct (assoc "altitude" o); [|reflexivity].
    destruct (assoc "airspeed" o); [|reflexivity].
    destruct (assoc "pitch" o); [|reflexivity].
    destruct (assoc "vibration" o); reflexivity.
  - intros H. destruct p; try reflexivity. elim (H o). reflexivity.
Qed.

Lemma SFltb_trans a b c :
  SFltb a b = true -> SFltb b c = true -> SFltb a c = true.
Proof.
  intros H1 H2. apply (SFltb_leb_trans _ _ _ H1).
  unfold SFltb in H2. unfold SFleb.
  destruct (SFcompare b c) as [[]|]; try discriminate; reflexivity.
Qed.

Lemma float_lit_4_6 : SFltb (float_lit 4) (float_lit 6) = true.
Proof. reflexivity. Qed.

Lemma float_lit_6_8 : SFltb (float_lit 6) (float_lit 8) = true.
Proof. reflexivity. Qed.

(** X8: the tiers of a float reading are the bands cut by 4.0, 6.0 and
    8.0, each open below: the tier is CRITICAL exactly above 8.0, HIGH
    exactly above 6.0 and not above 8.0, MEDIUM exactly above 4.0 and not
    above 6.0, and LOW exactly when the reading is not above 4.0, which is
    the case of NaN. *)
Theorem severity_bands f :
  (severity_of (JFloat f) = Ok CRITICAL <-> SFltb (float_lit 8) f = true) /\
  (severity_of (JFloat f) = Ok HIGH <->
     SFltb (float_lit 6) f = true /\ SFltb (float_lit 8) f = false) /\
  (severity_of (JFloat f) = Ok MEDIUM <->
     SFltb (float_lit 4) f = true /\ SFltb (float_lit 6) f = false) /\
  (severity_of (JFloat f) = Ok LOW <-> SFltb (float_lit 4) f = false) /\
  severity_of (JFloat S754_nan) = Ok LOW.
Proof.
  assert (H86 : SFltb (float_lit 8) f = true -> SFltb (float_lit 6) f = true)
    by (apply SFltb_trans; exact float_lit_6_8).
  assert (H64 : SFltb (float_lit 6) f = true -> SFltb (float_lit 4) f = true)
    by (apply SFltb_trans; exact float_lit_4_6).
  unfold severity_of, gt_lit, bindR.
  destruct (SFltb (float_lit 8) f) eqn:E8;
    destruct (SFltb (float_lit 6) f) eqn:E6;
    destruct (SFltb (float_lit 4) f) eqn:E4;
    try (specialize (H86 eq_refl)); try (specialize (H64 eq_refl));
    try discriminate;
    repeat split; intros; try discriminate; try reflexivity;
    try (destruct H; discriminate).
Qed.

(** X9: [calculate_severity] fails on exactly two grounds: [KeyError] when
    the record has no [vibration], and [TypeError] when the vibration is
    not a number (null, a string, an array, a dict); an int, a float or a
    bool always gets a tier, a bool the tier LOW. *)
Theorem severity_errors :
  (forall v, is_number v = true -> exists t, severity_of v = Ok t) /\
  (forall v, is_number v = false -> severity_of v = Raise TypeError) /\
  (forall b, severity_of (JBool b) = Ok LOW) /\
  (forall o, assoc "vibration" o = None ->
     calculate_severity (JObj o) = Raise (KeyError "vibration")) /\
  (forall p v, getitem p "vibration" = Ok v ->
     calculate_severity p = severity_of v).
Proof.
  split; [|split; [|split; [|split]]].
  - intros [] H; try discriminate.
    + destruct b; eexists; reflexivity.
    + apply severity_reading_total. reflexivity.
    + apply severity_reading_total. reflexivity.
  - intros [] H; try discriminate; reflexivity.
  - intros []; reflexivity.
  - intros o H. unfold calculate_severity, getitem. rewrite H. reflexivity.
  - intros p v H. unfold calculate_severity. rewrite H. reflexivity.
Qed.


(** ** Training *)

(** X10: the outcomes of [train_model].  It returns [False] exactly when
    there are fewer than 120 records, having only printed so.  It returns
    [True] only with 120 records or more, the scaler and the forest fitted
    on their features and the flag set.  When it raises, nothing is printed
    and the flag is as before; the exception is that of the feature
    extraction, nothing being changed, or that of the scaler, which is
    then as the failing call leaves it, or that of the forest, which is
    then as the failing call leaves it, the scaler having already been
    replaced by the one fitted on the new sample. *)
Theorem train_model_outcome training w r w' :
  train_model training w = (r, w') ->
  match r with
  | Ok false =>
      Z.of_nat (List.length training) < 120 /\
      w' = log (Print MsgNotEnough) w
  | Ok true =>
      120 <= Z.of_nat (List.length training) /\
      is_trained (self w') = true /\
      trace w' = trace w ++ [Print (MsgTrained (List.length training))] /\
      exists features x,
        mapR extract_features training = Ok features /\
        fit_transform (scaler (self w)) features = Ok (scaler (self w'), x) /\
        fit (model (self w)) x = Ok (model (self w'))
  | Raise e =>
      120 <= Z.of_nat (List.length training) /\
      is_trained (self w') = is_trained (self w) /\
      trace w' = trace w /\
      (mapR extract_features training = Raise e /\ w' = w \/
       exists features,
         mapR extract_features training = Ok features /\
         (fit_transform (scaler (self w)) features = Raise e /\
          w' = upd_self
                 (set_scaler (scaler_after_error (scaler (self w)) features))
                 w \/
          exists s x,
            fit_transform (scaler (self w)) features = Ok (s, x) /\
            fit (model (self w)) x = Raise e /\
            w' = upd_self
                   (set_model (forest_after_error (model (self w)) x))
                   (upd_self (set_scaler s) w)))
  end.
Proof.
  unfold train_model.
  destruct (Z.ltb_spec (Z.of_nat (List.length training)) 120) as [Hlt|Hge].
  - intros [= <- <-]. auto.
  - run. destruct (mapR extract_features training) as [features|e] eqn:F.
    + destruct (fit_transform (scaler (self w)) features) as [[s x]|e] eqn:S;
        cbv beta iota.
      * cbn [fst snd self upd_self model set_scaler].
        destruct (fit (model (self w)) x) as [forest|e] eqn:M; cbv beta iota.
        -- intros [= <- <-]. cbn. repeat split; auto.
           exists features, x. auto.
        -- intros [= <- <-]. cbn. repeat split; auto.
           right. exists features. split; [reflexivity|].
           right. exists s, x. auto.
      * intros [= <- <-]. repeat split; auto.
        right. exists features. auto.
    + intros [= <- <-]. repeat split; auto.
Qed.

(** X11: whatever its outcome, [train_model] leaves the training buffer,
    the counter of misjudged outliers, the position, both files and the
    clock as they were, never clears the trained flag, never sleeps, and
    never prints [Retraining model...]. *)
Theorem train_model_touches_estimators_only training w r w' :
  train_model training w = (r, w') ->
  same_frame w w' /\
  scores w w' /\
  retrains (trace w') = retrains (trace w).
Proof.
  intros H. destruct (train_model_frame _ _ H) as [F R].
  split; [exact F|]. split; [|exact R].
  eapply train_model_scores. exact H.
Qed.


(** ** Scoring *)

(** X12: whatever its outcome, an exception in the middle of the batch
    included, [detect_anomalies] leaves both files and the position as they
    were, keeps the training buffer as a prefix of the new one, never
    clears the trained flag, never sets the clock back and never sleeps. *)
Theorem detect_anomalies_keeps_files data_points w r w' :
  detect_anomalies data_points w = (r, w') ->
  scores w w'.
Proof. intros H. eapply detect_anomalies_scores. exact H. Qed.

Lemma detect_loop_flags pps : forall found w found' w',
  detect_loop found pps w = (Ok found', w') ->
  Forall (fun pp => is_outlier pp = true ->
                    succeeds (getitem (fst pp) "engineFailure") = true) pps.
Proof.
  induction pps as [|[p pred] pps IH]; intros found w found' w' H;
    constructor.
  - cbn [detect_loop] in H. unfold bind in H.
    destruct (detect_step found (p, pred) w) as [[f1|e] w1] eqn:E;
      [|discriminate].
    unfold is_outlier. cbn [fst snd]. intros Hp.
    apply Z.eqb_eq in Hp. subst pred.
    destruct (detect_step_outlier_inv _ _ _ E) as (ef & -> & _). reflexivity.
  - cbn [detect_loop] in H. unfold bind in H.
    destruct (detect_step found (p, pred) w) as [[f1|e] w1]; [|discriminate].
    exact (IH _ _ _ _ H).
Qed.

Lemma outliers_split pps :
  Forall (fun pp => is_outlier pp = true ->
                    succeeds (getitem (fst pp) "engineFailure") = true) pps ->
  (List.length (filter confirmed pps)
   + List.length (filter false_positive pps))%nat
  = List.length (filter is_outlier pps).
Proof.
  induction 1 as [|[p pred] pps Hp _ IH]; [reflexivity|].
  cbn [filter]. unfold confirmed at 1, false_positive at 1, is_outlier at 1.
  unfold is_outlier in Hp. cbn [fst snd] in *.
  destruct (pred =? -1); cbn [andb]; [|exact IH].
  specialize (Hp eq_refl).
  destruct (getitem p "engineFailure") as [ef|]; [|discriminate].
  destruct (truthy ef); cbn [negb List.length]; lia.
Qed.

(** X13: in a call of [detect_anomalies] that returns, every record
    labelled outlier is either reported or appended to the training buffer,
    never both and never neither, and the records labelled inlier are
    neither: the anomalies returned and the records appended are together
    as many as the labels [-1].  The counter of misjudged outliers stays
    between 0 and 10. *)
Theorem outliers_reported_or_buffered data_points w predictions found w' :
  is_trained (self w) = true ->
  labels (self w) data_points = Ok predictions ->
  detect_anomalies data_points w = (Ok found, w') ->
  (List.length found + List.length (training_data (self w')))%nat
  = (List.length (training_data (self w))
     + List.length (filter is_outlier (combine data_points predictions)))%nat /\
  List.length found
  = List.length (filter confirmed (combine data_points predictions)) /\
  (0 <= incorrect_anomalies (self w) <= 10 ->
   0 <= incorrect_anomalies (self w') <= 10).
Proof.
  intros T L D.
  pose proof (detect_anomalies_loop _ _ T L D) as Hloop.
  destruct (detect_loop_effect _ _ _ Hloop)
    as (Hbuf & (found1 & Hfound & Hrep) & _ & _ & _ & _ & CR).
  cbn [app] in Hfound. subst found1.
  pose proof (Forall2_length Hrep) as Hlen.
  pose proof (outliers_split (detect_loop_flags _ _ _ Hloop)) as Hsplit.
  split; [|split].
  - rewrite Hbuf, length_app, length_map. lia.
  - symmetry. exact Hlen.
  - intros Hc. destruct (CR Hc) as [-> _]. cbv zeta.
    match goal with
    | |- 0 <= ?n mod 11 <= 10 =>
        pose proof (Z.mod_pos_bound n 11 eq_refl); lia
    end.
Qed.

Lemma reports_fields a p :
  reports a p ->
  getitem a "timestamp" = getitem p "timestamp" /\
  getitem a "altitude" = getitem p "altitude" /\
  getitem a "airspeed" = getitem p "airspeed" /\
  getitem a "pitch" = getitem p "pitch" /\
  getitem a "vibration" = getitem p "vibration" /\
  getitem a "engineFailure" = getitem p "engineFailure" /\
  exists t,
    calculate_severity a = Ok t /\
    getitem a "severity" = Ok (JStr (tier_name t)).
Proof.
  intros (ts & al & s & pi & v & e & n & sev &
          Hts & Hal & Hs & Hpi & Hv & He & Hsev & ->).
  rewrite Hts, Hal, Hs, Hpi, Hv, He.
  repeat split; try reflexivity.
  exists sev. split; [|reflexivity].
  unfold calculate_severity. cbn [make_anomaly getitem assoc String.eqb
    Ascii.eqb Bool.eqb bindR]. exact Hsev.
Qed.

(** X14: every anomaly that [detect_anomalies] returns comes from a record
    of the batch that was labelled outlier and whose [engineFailure] is
    truthy: it carries the timestamp, the four features and the
    [engineFailure] of that record, and its [severity] is the name of the
    tier that [calculate_severity] gives for the anomaly itself. *)
Theorem anomalies_come_from_the_batch data_points w predictions found w' a :
  is_trained (self w) = true ->
  labels (self w) data_points = Ok predictions ->
  detect_anomalies data_points w = (Ok found, w') ->
  In a found ->
  exists p,
    In (p, -1) (combine data_points predictions) /\
    In p data_points /\
    truthy (field a "engineFailure") = true /\
    (forall k,
       In k ["timestamp"; "altitude"; "airspeed"; "pitch"; "vibration";
             "engineFailure"] ->
       getitem a k = getitem p k) /\
    exists t,
      calculate_severity a = Ok t /\
      getitem a "severity" = Ok (JStr (tier_name t)).
Proof.
  intros T L D Ha.
  pose proof (detect_anomalies_loop _ _ T L D) as Hloop.
  destruct (detect_loop_effect _ _ _ Hloop)
    as (_ & (found1 & Hfound & Hrep) & _).
  cbn [app] in Hfound. subst found1.
  destruct (@Forall2_In_r _ _ _ _ _ _ Hrep Ha) as ([p pred] & Hp & Hr).
  apply filter_In in Hp. destruct Hp as [Hin Hc].
  unfold confirmed in Hc. cbn [fst snd] in Hc, Hr.
  apply andb_true_iff in Hc. destruct Hc as [Hpred Hef].
  apply Z.eqb_eq in Hpred. subst pred.
  destruct (reports_fields Hr) as (Hts & Hal & Hs & Hpi & Hv & He & Hsev).
  exists p. split; [exact Hin|]. split; [exact (in_combine_l _ _ _ _ Hin)|].
  split; [|split; [|exact Hsev]].
  - unfold field. rewrite He.
    destruct (getitem p "engineFailure"); [exact Hef|discriminate].
  - intros k Hk. cbn [In] in Hk.
    repeat (destruct Hk as [<-|Hk]; [assumption|]). contradiction.
Qed.


(** ** Saving *)

Lemma save_anomalies_stored new w :
  save_anomalies new w =
    match stored (anomalies_file w) with
    | Ok old =>
        (Ok tt,
         log (Print (MsgSaved (List.length new)))
           (store (Doc (JArr (old ++ new))) w))
    | Raise e => (Raise e, w)
    end.
Proof.
  unfold save_anomalies, stored. run.
  destruct (anomalies_file w) as [c|]; [|reflexivity].
  destruct (json_load c) as [v|e].
  - destruct v; reflexivity.
  - destruct e; reflexivity.
Qed.

(** X15: [save_anomalies] raises in two cases only, and then does not
    write the file: when [json.load] raises an exception other than
    [JSONDecodeError], which goes on to the caller, and when the file
    holds a JSON document that is not an array (null, a number, a string,
    a dict), on which the concatenation raises [TypeError]. *)
Theorem save_anomalies_raises new w :
  (forall v,
     anomalies_file w = Some (Doc v) -> is_array v = false ->
     save_anomalies new w = (Raise TypeError, w)) /\
  (forall c e,
     anomalies_file w = Some c -> json_load c = Raise e ->
     e <> JSONDecodeError ->
     save_anomalies new w = (Raise e, w)) /\
  (forall e w',
     save_anomalies new w = (Raise e, w') ->
     w' = w /\
     exists c,
       anomalies_file w = Some c /\
       ((exists v, json_load c = Ok v /\ is_array v = false /\ e = TypeError) \/
        (json_load c = Raise e /\ e <> JSONDecodeError))).
Proof.
  rewrite save_anomalies_stored. unfold stored. split; [|split].
  - intros v -> Hv. cbn [json_load]. destruct v; try reflexivity. discriminate.
  - intros c e -> L Ne. rewrite L.
    destruct e; try reflexivity. elim Ne. reflexivity.
  - intros e w'.
    destruct (anomalies_file w) as [c|]; [|discriminate].
    destruct (json_load c) as [v|e0] eqn:L.
    + destruct v; try discriminate; intros [= <- <-];
        (split; [reflexivity|]); exists c; (split; [reflexivity|]);
        left; eexists; eauto.
    + destruct e0; try discriminate; intros [= <- <-];
        (split; [reflexivity|]); exists c; (split; [reflexivity|]);
        right; (split; [exact L|discriminate]).
Qed.

(** X16: after [clean_anomalies], whatever the file held, [save_anomalies]
    returns and the file holds exactly the new anomalies. *)
Theorem save_after_clean new w :
  bind clean_anomalies (fun _ => save_anomalies new) w =
    (Ok tt,
     log (Print (MsgSaved (List.length new))) (store (Doc (JArr new)) w)).
Proof.
  unfold clean_anomalies, bind, write_anomalies_file.
  rewrite save_anomalies_stored. reflexivity.
Qed.

(** ** Turns of the loop *)

(** The turn, once the new records are loaded and split. *)
Lemma cycle_body_loaded w lines new_data training testing :
  telemetry_file w = Some lines ->
  existsb is_bad (skipn (last_position (self w)) lines) = false ->
  json_lines (skipn (last_position (self w)) lines) = new_data ->
  new_data <> [] ->
  filterR is_training new_data = Ok training ->
  filterR is_testing new_data = Ok testing ->
  cycle_body w =
    bind
      (bind
         (if nonempty training && negb (is_trained (self w)) then
            bind (modify_self
                    (fun d => set_training_data (training_data d ++ training) d))
              (fun _ => bind get_self
                 (fun d => bind (train_model (training_data d))
                    (fun _ => ret tt)))
          else ret tt)
         (fun _ => bind get_self (fun d =>
            if nonempty testing && is_trained d then
              bind (print (MsgDetecting (List.length testing)))
                (fun _ => bind (detect_anomalies testing)
                   (fun found => bind (print (MsgDetected (List.length found)))
                      (fun _ => if nonempty found then save_anomalies found
                                else ret tt)))
            else ret tt)))
      (fun _ => sleep 2)
      (upd_self (set_last_position (List.length lines)) w).
Proof.
  intros F G E N Tr Te. unfold cycle_body. unfold bind at 1.
  rewrite (load_telemetry_data_good w F G), E.
  destruct new_data; [contradiction|]. cbn [nonempty].
  rewrite Tr, Te. reflexivity.
Qed.

(** X17: while the detector is untrained, the records of the scoring
    phase are not scored, and the position moves past them all the same.
    With no training record in the batch the turn only moves the position;
    with training records that leave the buffer under 120 it appends them,
    prints that the data is not enough, and stays untrained. *)
Theorem untrained_turn_skips_scoring w lines new_data training testing :
  telemetry_file w = Some lines ->
  existsb is_bad (skipn (last_position (self w)) lines) = false ->
  json_lines (skipn (last_position (self w)) lines) = new_data ->
  new_data <> [] ->
  filterR is_training new_data = Ok training ->
  filterR is_testing new_data = Ok testing ->
  is_trained (self w) = false ->
  Z.of_nat (List.length (training_data (self w) ++ training)) < 120 ->
  cycle w =
    (Ok tt,
     log (Sleep 2)
       (if nonempty training then
          log (Print MsgNotEnough)
            (upd_self
               (fun d => set_training_data (training_data d ++ training) d)
               (upd_self (set_last_position (List.length lines)) w))
        else upd_self (set_last_position (List.length lines)) w)).
Proof.
  intros F G E N Tr Te T Hlen. unfold cycle, try_except.
  rewrite (cycle_body_loaded w F G E N Tr Te), T. cbn [negb].
  rewrite andb_true_r.
  destruct (nonempty training); run;
    cbn [self upd_self training_data set_training_data set_last_position
         is_trained].
  - rewrite (train_model_short _ _ Hlen).
    cbn [self log upd_self is_trained set_training_data set_last_position].
    rewrite T, andb_false_r. reflexivity.
  - rewrite T, andb_false_r. reflexivity.
Qed.

(** X18: once the detector is trained, the records of the training phase
    are dropped: a batch made of them only moves the position, and the
    training buffer stays as it was. *)
Theorem trained_turn_drops_training_records w lines new_data training :
  telemetry_file w = Some lines ->
  existsb is_bad (skipn (last_position (self w)) lines) = false ->
  json_lines (skipn (last_position (self w)) lines) = new_data ->
  new_data <> [] ->
  filterR is_training new_data = Ok training ->
  filterR is_testing new_data = Ok [] ->
  is_trained (self w) = true ->
  cycle w =
    (Ok tt,
     log (Sleep 2) (upd_self (set_last_position (List.length lines)) w)).
Proof.
  intros F G E N Tr Te T. unfold cycle, try_except.
  rewrite (cycle_body_loaded w F G E N Tr Te), T. cbn [negb].
  rewrite andb_false_r. reflexivity.
Qed.

(** X19: a scoring turn of a trained detector.  The position moves past
    the batch before the records are scored.  When detection returns
    anomalies they are appended to the entries of the anomalies file, a
    missing file or one on which [json.load] raises [JSONDecodeError]
    holding none; when the save raises, on a file that [json.load] fails
    on otherwise or that holds no array, the turn prints that exception
    and sleeps 5 seconds.  When detection returns no anomaly, or raises,
    the file is as it was, and after a raise the turn prints the error and
    sleeps 5 seconds: the anomalies found before the raise are not saved. *)
Theorem scoring_turn w lines new_data training testing r w2 :
  telemetry_file w = Some lines ->
  existsb is_bad (skipn (last_position (self w)) lines) = false ->
  json_lines (skipn (last_position (self w)) lines) = new_data ->
  filterR is_training new_data = Ok training ->
  filterR is_testing new_data = Ok testing ->
  testing <> [] ->
  is_trained (self w) = true ->
  detect_anomalies testing
    (log (Print (MsgDetecting (List.length testing)))
       (upd_self (set_last_position (List.length lines)) w)) = (r, w2) ->
  match r with
  | Ok found =>
      match found, stored (anomalies_file w) with
      | [], _ =>
          cycle w = (Ok tt, log (Sleep 2) (log (Print (MsgDetected 0)) w2)) /\
          anomalies_file w2 = anomalies_file w
      | _ :: _, Ok old =>
          exists w',
            cycle w = (Ok tt, w') /\
            anomalies_file w' = Some (Doc (JArr (old ++ found))) /\
            last_position (self w') = List.length lines
      | _ :: _, Raise e =>
          cycle w =
            (Ok tt,
             log (Sleep 5)
               (log (Print (MsgError e))
                  (log (Print (MsgDetected (List.length found))) w2))) /\
          anomalies_file w2 = anomalies_file w
      end
  | Raise e =>
      cycle w = (Ok tt, log (Sleep 5) (log (Print (MsgError e)) w2)) /\
      anomalies_file w2 = anomalies_file w /\
      last_position (self w2) = List.length lines
  end.
Proof.
  intros F G E Tr Te N T D.
  assert (N' : new_data <> []).
  { intros ->. cbn in Te. injection Te as <-. contradiction. }
  assert (Hte : nonempty testing = true)
    by (destruct testing; [contradiction|reflexivity]).
  destruct (detect_anomalies_scores _ _ D) as [_ Sk Pk].
  cbn [self log upd_self anomalies_file last_position set_last_position]
    in Sk, Pk.
  assert (C : cycle_body w =
    match r with
    | Ok found =>
        bind (if nonempty found then save_anomalies found else ret tt)
          (fun _ => sleep 2)
          (log (Print (MsgDetected (List.length found))) w2)
    | Raise e => (Raise e, w2)
    end).
  { rewrite (cycle_body_loaded w F G E N' Tr Te), T. cbn [negb].
    rewrite andb_false_r. run.
    cbn [self upd_self is_trained set_last_position].
    rewrite T, Hte. cbn [andb]. rewrite D. destruct r; reflexivity. }
  unfold cycle, try_except. rewrite C. clear C.
  destruct r as [found|e]; [|auto].
  destruct found as [|a found]; [auto|]. cbn [nonempty]. unfold bind.
  rewrite save_anomalies_stored.
  cbn [anomalies_file log]. rewrite Sk.
  destruct (stored (anomalies_file w)) as [old|e];
    [|split; reflexivity].
  eexists. split; [reflexivity|]. split; [reflexivity|]. exact Pk.
Qed.


Lemma train_model_fits training w features s x forest :
  120 <= Z.of_nat (List.length training) ->
  mapR extract_features training = Ok features ->
  fit_transform (scaler (self w)) features = Ok (s, x) ->
  fit (model (self w)) x = Ok forest ->
  train_model training w =
    (Ok true,
     log (Print (MsgTrained (List.length training)))
       (upd_self (set_is_trained true)
          (upd_self (set_model forest) (upd_self (set_scaler s) w)))).
Proof.
  intros Hlen Hf Hs Hm. unfold train_model.
  destruct (Z.ltb_spec (Z.of_nat (List.length training)) 120); [lia|].
  run. rewrite Hf. cbv beta iota. rewrite Hs. cbv beta iota.
  cbn [fst snd self upd_self model set_scaler]. rewrite Hm. reflexivity.
Qed.

(** X20: the turn in which the buffer reaches 120 records.  The training
    records of the batch are appended to the buffer, the estimators are
    fitted on the whole buffer and the detector is trained from then on;
    the scoring records of the same batch are scored in that same turn,
    after the training, and a batch without scoring records ends the turn
    there. *)
Theorem first_training_turn
    w lines new_data training testing features s x forest :
  telemetry_file w = Some lines ->
  existsb is_bad (skipn (last_position (self w)) lines) = false ->
  json_lines (skipn (last_position (self w)) lines) = new_data ->
  filterR is_training new_data = Ok training ->
  filterR is_testing new_data = Ok testing ->
  training <> [] ->
  is_trained (self w) = false ->
  120 <= Z.of_nat (List.length (training_data (self w) ++ training)) ->
  mapR extract_features (training_data (self w) ++ training) = Ok features ->
  fit_transform (scaler (self w)) features = Ok (s, x) ->
  fit (model (self w)) x = Ok forest ->
  let wt :=
    log (Print (MsgTrained (List.length (training_data (self w) ++ training))))
      (upd_self (set_is_trained true)
         (upd_self (set_model forest)
            (upd_self (set_scaler s)
               (upd_self
                  (fun d => set_training_data (training_data d ++ training) d)
                  (upd_self (set_last_position (List.length lines)) w))))) in
  exists w',
    cycle w = (Ok tt, w') /\
    is_trained (self w') = true /\
    prefix_of (training_data (self w) ++ training) (training_data (self w')) /\
    (testing = [] -> w' = log (Sleep 2) wt) /\
    (testing <> [] ->
     prefix_of (trace wt ++ [Print (MsgDetecting (List.length testing))])
       (trace w')).
Proof.
  intros F G E Tr Te N T Hlen Hf Hs Hm wt.
  assert (N' : new_data <> []).
  { intros ->. cbn in Tr. injection Tr as <-. contradiction. }
  assert (Htr : nonempty training = true)
    by (destruct training; [contradiction|reflexivity]).
  assert (C : cycle_body w =
    bind (if nonempty testing then
            bind (print (MsgDetecting (List.length testing)))
              (fun _ => bind (detect_anomalies testing)
                 (fun found => bind (print (MsgDetected (List.length found)))
                    (fun _ => if nonempty found then save_anomalies found
                              else ret tt)))
          else ret tt)
      (fun _ => sleep 2) wt).
  { rewrite (cycle_body_loaded w F G E N' Tr Te), T, Htr. cbn [negb andb].
    unfold bind at 1 2 3 4 5. unfold modify_self at 1. unfold get_self at 1.
    cbv beta iota.
    cbn [self upd_self training_data set_training_data set_last_position].
    erewrite train_model_fits; [|exact Hlen|exact Hf|exact Hs|exact Hm].
    unfold ret at 1. unfold get_self at 1. cbv beta iota. fold wt.
    unfold bind at 1. cbv beta iota.
    change (is_trained (self wt)) with true. rewrite andb_true_r.
    reflexivity. }
  assert (Ht : is_trained (self wt) = true) by reflexivity.
  assert (Hb : training_data (self wt) = training_data (self w) ++ training)
    by reflexivity.
  rewrite <- Hb. unfold cycle, try_except. rewrite C. clear C.
  destruct testing as [|t testing].
  - exists (log (Sleep 2) wt). cbn [nonempty]. split; [reflexivity|].
    split; [exact Ht|]. split; [apply prefix_of_refl|].
    split; [reflexivity|]. intros H. elim H. reflexivity.
  - cbn [nonempty]. unfold bind, print, sleep, emit.
    destruct (detect_anomalies (t :: testing)
                (log (Print (MsgDetecting (List.length (t :: testing)))) wt))
      as [[found|e] w2] eqn:D;
      destruct (detect_anomalies_scores _ _ D) as [[B Tk _ _ Tg _ _] _ _];
      cbn [self trace log is_trained training_data] in B, Tk, Tg;
      specialize (Tk Ht).
    + destruct found as [|a found]; cbn [nonempty].
      * eexists. split; [reflexivity|].
        cbn [self trace log store is_trained training_data].
        split; [exact Tk|]. split; [exact B|].
        split; [discriminate|]. intros _.
        repeat (eapply prefix_of_trans; [|apply prefix_of_app]). exact Tg.
      * rewrite save_anomalies_stored.
        destruct (stored _); eexists; (split; [reflexivity|]);
          cbn [self trace log store is_trained training_data];
          (split; [exact Tk|]); (split; [exact B|]);
          (split; [discriminate|]); intros _;
          repeat (eapply prefix_of_trans; [|apply prefix_of_app]); exact Tg.
    + eexists. split; [reflexivity|].
      cbn [self trace log store is_trained training_data].
      split; [exact Tk|]. split; [exact B|].
      split; [discriminate|]. intros _.
      repeat (eapply prefix_of_trans; [|apply prefix_of_app]). exact Tg.
Qed.


Lemma filterR_non_dict new_data :
  forallb is_dict new_data = false ->
  filterR is_training new_data = Raise AttributeError.
Proof.
  induction new_data as [|d l IH]; [discriminate|].
  cbn [forallb filterR]. unfold is_training at 1.
  destruct d; cbn [is_dict dict_get bindR andb]; try reflexivity.
  intros H. destruct (assoc "trainingPhase" o); cbn [bindR];
    rewrite (IH H); reflexivity.
Qed.

(** X21: a line that holds a JSON document which is not a dict (a number,
    a string, an array, null) fails the whole batch it arrives in.  The
    split of the batch raises [AttributeError] after the position has
    moved past the batch: nothing is appended to the buffer, nothing is
    trained, scored or saved, and the turn prints the error and sleeps 5
    seconds. *)
Theorem non_dict_line_loses_batch w lines new_data :
  telemetry_file w = Some lines ->
  existsb is_bad (skipn (last_position (self w)) lines) = false ->
  json_lines (skipn (last_position (self w)) lines) = new_data ->
  forallb is_dict new_data = false ->
  cycle w =
    (Ok tt,
     log (Sleep 5)
       (log (Print (MsgError AttributeError))
          (upd_self (set_last_position (List.length lines)) w))).
Proof.
  intros F G E D. unfold cycle, cycle_body, try_except. unfold bind at 1.
  rewrite (load_telemetry_data_good w F G), E.
  destruct new_data as [|d l]; [discriminate|]. cbn [nonempty].
  unfold bind at 1. unfold bind at 1. unfold lift at 1.
  rewrite (filterR_non_dict _ D). reflexivity.
Qed.

End Coverage.

(** ** The further properties at work on the small instance *)

Lemma load_reads_only_new_lines_witness :
  exists w',
    load_telemetry_data
      (Toy.reading_at (Toy.trained [] 0) 2 (Toy.consumed ++ Toy.arrived))
      = (Ok (json_lines Toy.arrived), w') /\
    w' = upd_self (set_last_position (2 + 2))
           (Toy.reading_at (Toy.trained [] 0) 2 (Toy.consumed ++ Toy.arrived)) /\
    load_telemetry_data w' = (Ok [], w').
Proof.
  apply (@load_reads_only_new_lines Toy.threshold_sklearn
           (Toy.reading_at (Toy.trained [] 0) 2 (Toy.consumed ++ Toy.arrived))
           Toy.consumed Toy.arrived);
    reflexivity.
Defined.

Lemma load_truncated_file_witness :
  load_telemetry_data (Toy.reading_at (Toy.trained [] 0) 5 [LJson Toy.alarm])
  = (Ok [], upd_self (set_last_position 1)
              (Toy.reading_at (Toy.trained [] 0) 5 [LJson Toy.alarm])).
Proof.
  apply (@load_truncated_file Toy.threshold_sklearn
           (Toy.reading_at (Toy.trained [] 0) 5 [LJson Toy.alarm])
           [LJson Toy.alarm]).
  - reflexivity.
  - cbn. lia.
Defined.

Lemma bad_line_blocks_ingestion_witness :
  load_telemetry_data
    (Toy.reading_at (Toy.trained [] 0) 0 [LBad; LJson Toy.alarm])
  = (Raise JSONDecodeError,
     Toy.reading_at (Toy.trained [] 0) 0 [LBad; LJson Toy.alarm]) /\
  exists w',
    cycles (dt := Toy.wall_clock) 3
      (Toy.reading_at (Toy.trained [] 0) 0 [LBad; LJson Toy.alarm])
    = (Ok tt, w') /\
    self w' = self (Toy.reading_at (Toy.trained [] 0) 0 [LBad; LJson Toy.alarm]) /\
    anomalies_file w' = None /\
    trace w' =
      [] ++ List.concat
              (repeat [Print (MsgError JSONDecodeError); Sleep 5] 3).
Proof.
  apply (@bad_line_blocks_ingestion Toy.threshold_sklearn Toy.wall_clock
           (Toy.reading_at (Toy.trained [] 0) 0 [LBad; LJson Toy.alarm])
           [LBad; LJson Toy.alarm] 3);
    reflexivity.
Defined.

Lemma idle_turn_witness :
  cycle (dt := Toy.wall_clock) Toy.watching
  = (Ok tt,
     log (Sleep 2)
       (log (Print MsgNoNewData)
          (log (Print MsgTelemetryNotFound) Toy.watching))) /\
  cycle (dt := Toy.wall_clock)
    (Toy.reading_at (Toy.trained [] 0) 1 [LJson Toy.alarm; LBlank])
  = (Ok tt,
     log (Sleep 2)
       (log (Print MsgNoNewData)
          (upd_self (set_last_position 2)
             (Toy.reading_at (Toy.trained [] 0) 1 [LJson Toy.alarm; LBlank])))).
Proof.
  split.
  - apply (proj1 (@idle_turn Toy.threshold_sklearn Toy.wall_clock
                    Toy.watching)).
    reflexivity.
  - apply (proj2 (@idle_turn Toy.threshold_sklearn Toy.wall_clock
                    (Toy.reading_at (Toy.trained [] 0) 1
                       [LJson Toy.alarm; LBlank]))
             [LJson Toy.alarm; LBlank]);
      reflexivity.
Defined.

Lemma extract_features_outcome_witness :
  extract_features Toy.alarm
  = Ok [JFloat (float_lit 30000); JFloat (float_lit 450);
        JFloat (float_lit 2); JFloat (float_lit 9)] /\
  extract_features (Toy.malformed 0) = Raise (KeyError "altitude") /\
  extract_features (JInt 3) = Raise TypeError.
Proof.
  split; [|split].
  - rewrite (proj1 (extract_features_outcome Toy.alarm) _ eq_refl).
    reflexivity.
  - rewrite (proj1 (extract_features_outcome (Toy.malformed 0)) _ eq_refl).
    reflexivity.
  - apply (proj2 (extract_features_outcome (JInt 3))).
    intros o H. discriminate H.
Defined.

Lemma severity_bands_witness :
  severity_of (JFloat (float_lit 8)) = Ok HIGH /\
  severity_of (JFloat (float_lit 6)) = Ok MEDIUM /\
  severity_of (JFloat (float_lit 4)) = Ok LOW /\
  severity_of (JFloat (S754_infinity false)) = Ok CRITICAL /\
  severity_of (JFloat (S754_infinity true)) = Ok LOW.
Proof.
  split; [|split; [|split; [|split]]].
  - apply (proj1 (proj2 (severity_bands (float_lit 8)))). split; reflexivity.
  - apply (proj1 (proj2 (proj2 (severity_bands (float_lit 6))))).
    split; reflexivity.
  - apply (proj1 (proj2 (proj2 (proj2 (severity_bands (float_lit 4)))))).
    reflexivity.
  - apply (proj1 (severity_bands (S754_infinity false))). reflexivity.
  - apply (proj1 (proj2 (proj2 (proj2 (severity_bands (S754_infinity true)))))).
    reflexivity.
Defined.

Lemma severity_errors_witness :
  (exists t, severity_of (JInt 9) = Ok t) /\
  severity_of (JStr "9.0") = Raise TypeError /\
  severity_of JNull = Raise TypeError /\
  calculate_severity (JObj [("altitude", JInt 1)])
  = Raise (KeyError "vibration") /\
  calculate_severity Toy.alarm = severity_of (JFloat (float_lit 9)).
Proof.
  destruct severity_errors as (Num & NotNum & _ & Missing & Present).
  split; [|split; [|split; [|split]]].
  - apply Num. reflexivity.
  - apply NotNum. reflexivity.
  - apply NotNum. reflexivity.
  - apply Missing. reflexivity.
  - apply Present. reflexivity.
Defined.

(** The four outcomes: the refusal, the fit, a sample that the scaler
    refuses, which leaves a trained detector with an unfitted scaler, and a
    sample that the forest refuses, which leaves it with the new scaler and
    an unfitted forest. *)
Lemma train_model_outcome_witness :
  (Z.of_nat (List.length (repeat Toy.baseline 3)) < 120 /\
   snd (train_model (repeat Toy.baseline 3) Toy.untrained)
   = log (Print MsgNotEnough) Toy.untrained) /\
  (120 <= Z.of_nat (List.length (repeat Toy.baseline 120)) /\
   is_trained (self (snd (train_model (repeat Toy.baseline 120) Toy.untrained)))
   = true /\
   trace (snd (train_model (repeat Toy.baseline 120) Toy.untrained))
   = trace Toy.untrained ++ [Print (MsgTrained 120)] /\
   exists features x,
     mapR extract_features (repeat Toy.baseline 120) = Ok features /\
     fit_transform (scaler (self Toy.untrained)) features
     = Ok (scaler (self (snd (train_model (repeat Toy.baseline 120)
                                 Toy.untrained))), x) /\
     fit (model (self Toy.untrained)) x
     = Ok (model (self (snd (train_model (repeat Toy.baseline 120)
                                Toy.untrained))))) /\
  (is_trained (self (snd (train_model Toy.noisy_sample Toy.strict_trained)))
   = true /\
   scaler (self (snd (train_model Toy.noisy_sample Toy.strict_trained)))
   = None /\
   model (self (snd (train_model Toy.noisy_sample Toy.strict_trained)))
   = Some 4) /\
  (is_trained (self (snd (train_model Toy.blind_sample Toy.strict_trained)))
   = true /\
   scaler (self (snd (train_model Toy.blind_sample Toy.strict_trained)))
   = Some 120%nat /\
   model (self (snd (train_model Toy.blind_sample Toy.strict_trained)))
   = None).
Proof.
  split; [|split; [|split]].
  - apply (@train_model_outcome Toy.threshold_sklearn
             (repeat Toy.baseline 3) Toy.untrained (Ok false)).
    reflexivity.
  - apply (@train_model_outcome Toy.threshold_sklearn
             (repeat Toy.baseline 120) Toy.untrained (Ok true)).
    vm_compute. reflexivity.
  - destruct (@train_model_outcome Toy.strict_sklearn
                Toy.noisy_sample Toy.strict_trained (Raise ValueError)
                (snd (train_model Toy.noisy_sample Toy.strict_trained)))
      as (_ & T & _ & [[F _]|(features & F & [[S ->]|(s & x & S & _)])]).
    + vm_compute. reflexivity.
    + vm_compute in F. discriminate F.
    + split; [exact T|]. split; reflexivity.
    + vm_compute in F. injection F as <-. vm_compute in S. discriminate S.
  - destruct (@train_model_outcome Toy.strict_sklearn
                Toy.blind_sample Toy.strict_trained (Raise ValueError)
                (snd (train_model Toy.blind_sample Toy.strict_trained)))
      as (_ & T & _ & [[F _]|(features & F & [[S _]|(s & x & S & M & ->)])]).
    + vm_compute. reflexivity.
    + vm_compute in F. discriminate F.
    + vm_compute in F. injection F as <-. vm_compute in S. discriminate S.
    + split; [exact T|].
      vm_compute in F. injection F as <-. vm_compute in S.
      injection S as <- <-. split; reflexivity.
Defined.

Lemma train_model_touches_estimators_only_witness :
  same_frame Toy.untrained
    (snd (train_model (repeat Toy.baseline 3) Toy.untrained)) /\
  scores Toy.untrained
    (snd (train_model (repeat Toy.baseline 3) Toy.untrained)) /\
  retrains (trace (snd (train_model (repeat Toy.baseline 3) Toy.untrained)))
  = retrains (trace Toy.untrained).
Proof.
  apply (@train_model_touches_estimators_only Toy.threshold_sklearn
           (repeat Toy.baseline 3) Toy.untrained (Ok false)).
  reflexivity.
Defined.

Lemma detect_anomalies_keeps_files_witness :
  scores Toy.watching
    (snd (detect_anomalies (dt := Toy.wall_clock)
            [Toy.alarm; Toy.unlabelled 1 9] Toy.watching)).
Proof.
  apply (@detect_anomalies_keeps_files Toy.threshold_sklearn Toy.wall_clock
           [Toy.alarm; Toy.unlabelled 1 9] Toy.watching
           (Raise (KeyError "engineFailure"))).
  vm_compute. reflexivity.
Defined.

Lemma outliers_reported_or_buffered_witness :
  (List.length [Toy.reported_alarm]
   + List.length
       (training_data
          (self (snd (detect_anomalies (dt := Toy.wall_clock)
                        [Toy.alarm; Toy.false_alarm; Toy.baseline]
                        Toy.watching)))))%nat
  = (List.length (training_data (self Toy.watching))
     + List.length
         (filter is_outlier
            (combine [Toy.alarm; Toy.false_alarm; Toy.baseline] [(-1)%Z; (-1)%Z; 1%Z])))%nat /\
  List.length [Toy.reported_alarm]
  = List.length
      (filter confirmed
         (combine [Toy.alarm; Toy.false_alarm; Toy.baseline] [-1; -1; 1])) /\
  (0 <= incorrect_anomalies (self Toy.watching) <= 10 ->
   0 <= incorrect_anomalies
          (self (snd (detect_anomalies (dt := Toy.wall_clock)
                        [Toy.alarm; Toy.false_alarm; Toy.baseline]
                        Toy.watching))) <= 10).
Proof.
  apply (@outliers_reported_or_buffered Toy.threshold_sklearn Toy.wall_clock
           [Toy.alarm; Toy.false_alarm; Toy.baseline] Toy.watching
           [-1; -1; 1] [Toy.reported_alarm]);
    vm_compute; reflexivity.
Defined.

Lemma anomalies_come_from_the_batch_witness :
  exists p,
    In (p, -1) (combine [Toy.alarm; Toy.false_alarm] [-1; -1]) /\
    In p [Toy.alarm; Toy.false_alarm] /\
    truthy (field Toy.reported_alarm "engineFailure") = true /\
    (forall k,
       In k ["timestamp"; "altitude"; "airspeed"; "pitch"; "vibration";
             "engineFailure"] ->
       getitem Toy.reported_alarm k = getitem p k) /\
    exists t,
      calculate_severity Toy.reported_alarm = Ok t /\
      getitem Toy.reported_alarm "severity" = Ok (JStr (tier_name t)).
Proof.
  apply (@anomalies_come_from_the_batch Toy.threshold_sklearn Toy.wall_clock
           [Toy.alarm; Toy.false_alarm] Toy.watching [-1; -1]
           [Toy.reported_alarm]
           (snd (detect_anomalies (dt := Toy.wall_clock)
                   [Toy.alarm; Toy.false_alarm] Toy.watching))
           Toy.reported_alarm);
    try (vm_compute; reflexivity).
  left. reflexivity.
Defined.

Lemma save_anomalies_raises_witness :
  save_anomalies [Toy.reported_alarm] (store (Doc (JObj [])) Toy.watching)
  = (Raise TypeError, store (Doc (JObj [])) Toy.watching) /\
  save_anomalies [Toy.reported_alarm] Toy.mangled_store
  = (Raise UnicodeDecodeError, Toy.mangled_store) /\
  (snd (save_anomalies [Toy.reported_alarm] Toy.mangled_store)
   = Toy.mangled_store /\
   exists c,
     anomalies_file Toy.mangled_store = Some c /\
     ((exists v, json_load c = Ok v /\ is_array v = false /\
                 UnicodeDecodeError = TypeError) \/
      (json_load c = Raise UnicodeDecodeError /\
       UnicodeDecodeError <> JSONDecodeError))).
Proof.
  split; [|split].
  - apply (proj1 (@save_anomalies_raises Toy.threshold_sklearn
                    [Toy.reported_alarm] (store (Doc (JObj [])) Toy.watching))
             (JObj []));
      reflexivity.
  - apply (proj1 (proj2 (@save_anomalies_raises Toy.threshold_sklearn
                           [Toy.reported_alarm] Toy.mangled_store))
             (Unreadable UnicodeDecodeError));
      [reflexivity|reflexivity|discriminate].
  - apply (proj2 (proj2 (@save_anomalies_raises Toy.threshold_sklearn
                           [Toy.reported_alarm] Toy.mangled_store))).
    reflexivity.
Defined.

Lemma untrained_turn_skips_scoring_witness :
  cycle (dt := Toy.wall_clock)
    (Toy.reading_at init 0 [LJson Toy.baseline; LJson Toy.alarm])
  = (Ok tt,
     log (Sleep 2)
       (log (Print MsgNotEnough)
          (upd_self
             (fun d => set_training_data (training_data d ++ [Toy.baseline]) d)
             (upd_self (set_last_position 2)
                (Toy.reading_at init 0 [LJson Toy.baseline; LJson Toy.alarm]))))).
Proof.
  apply (@untrained_turn_skips_scoring Toy.threshold_sklearn Toy.wall_clock
           (Toy.reading_at init 0 [LJson Toy.baseline; LJson Toy.alarm])
           [LJson Toy.baseline; LJson Toy.alarm]
           [Toy.baseline; Toy.alarm] [Toy.baseline] [Toy.alarm]);
    try reflexivity.
  discriminate.
Defined.

Lemma trained_turn_drops_training_records_witness :
  cycle (dt := Toy.wall_clock)
    (Toy.reading_at (Toy.trained [] 0) 0 [LJson Toy.baseline])
  = (Ok tt,
     log (Sleep 2)
       (upd_self (set_last_position 1)
          (Toy.reading_at (Toy.trained [] 0) 0 [LJson Toy.baseline]))).
Proof.
  apply (@trained_turn_drops_training_records Toy.threshold_sklearn
           Toy.wall_clock
           (Toy.reading_at (Toy.trained [] 0) 0 [LJson Toy.baseline])
           [LJson Toy.baseline] [Toy.baseline] [Toy.baseline]);
    try reflexivity.
  discriminate.
Defined.

Lemma scoring_turn_witness :
  (exists w',
     cycle (dt := Toy.wall_clock) Toy.clean_feed = (Ok tt, w') /\
     anomalies_file w' = Some (Doc (JArr ([] ++ [Toy.reported_alarm]))) /\
     last_position (self w') = 1%nat) /\
  (cycle (dt := Toy.wall_clock) Toy.clean_feed_mangled_store
   = (Ok tt,
      log (Sleep 5)
        (log (Print (MsgError UnicodeDecodeError))
           (log (Print (MsgDetected 1))
              (snd (detect_anomalies (dt := Toy.wall_clock) [Toy.alarm]
                      (log (Print (MsgDetecting 1))
                         (upd_self (set_last_position 1)
                            Toy.clean_feed_mangled_store))))))) /\
   anomalies_file
     (snd (detect_anomalies (dt := Toy.wall_clock) [Toy.alarm]
             (log (Print (MsgDetecting 1))
                (upd_self (set_last_position 1)
                   Toy.clean_feed_mangled_store))))
   = anomalies_file Toy.clean_feed_mangled_store).
Proof.
  split.
  - apply (@scoring_turn Toy.threshold_sklearn Toy.wall_clock Toy.clean_feed
             [LJson Toy.alarm] [Toy.alarm] [] [Toy.alarm]
             (Ok [Toy.reported_alarm])
             (snd (detect_anomalies (dt := Toy.wall_clock) [Toy.alarm]
                     (log (Print (MsgDetecting 1))
                        (upd_self (set_last_position 1) Toy.clean_feed)))));
      try reflexivity.
    discriminate.
  - apply (@scoring_turn Toy.threshold_sklearn Toy.wall_clock
             Toy.clean_feed_mangled_store
             [LJson Toy.alarm] [Toy.alarm] [] [Toy.alarm]
             (Ok [Toy.reported_alarm])
             (snd (detect_anomalies (dt := Toy.wall_clock) [Toy.alarm]
                     (log (Print (MsgDetecting 1))
                        (upd_self (set_last_position 1)
                           Toy.clean_feed_mangled_store)))));
      try reflexivity.
    discriminate.
Defined.

Lemma first_training_turn_witness :
  exists w',
    cycle (dt := Toy.wall_clock)
      (Toy.reading_at init 0 (repeat (LJson Toy.baseline) 120)) = (Ok tt, w') /\
    is_trained (self w') = true /\
    prefix_of ([] ++ repeat Toy.baseline 120) (training_data (self w')).
Proof.
  destruct (@first_training_turn Toy.threshold_sklearn Toy.wall_clock
              (Toy.reading_at init 0 (repeat (LJson Toy.baseline) 120))
              (repeat (LJson Toy.baseline) 120)
              (repeat Toy.baseline 120) (repeat Toy.baseline 120) []
              (repeat [JFloat (float_lit 30000); JFloat (float_lit 450);
                       JFloat (float_lit 2); JFloat (float_lit 2)] 120)
              tt
              (repeat [JFloat (float_lit 30000); JFloat (float_lit 450);
                       JFloat (float_lit 2); JFloat (float_lit 2)] 120)
              4)
    as (w' & C & T & B & _); try (vm_compute; reflexivity).
  - discriminate.
  - vm_compute. discriminate.
  - exists w'. auto.
Defined.

Lemma non_dict_line_loses_batch_witness :
  cycle (dt := Toy.wall_clock)
    (Toy.reading_at (Toy.trained [] 0) 0 [LJson (JInt 3); LJson Toy.alarm])
  = (Ok tt,
     log (Sleep 5)
       (log (Print (MsgError AttributeError))
          (upd_self (set_last_position 2)
             (Toy.reading_at (Toy.trained [] 0) 0
                [LJson (JInt 3); LJson Toy.alarm])))).
Proof.
  apply (@non_dict_line_loses_batch Toy.threshold_sklearn Toy.wall_clock
           (Toy.reading_at (Toy.trained [] 0) 0
              [LJson (JInt 3); LJson Toy.alarm])
           [LJson (JInt 3); LJson Toy.alarm] [JInt 3; Toy.alarm]);
    reflexivity.
Defined.
